(** * GPU plugin: the enumerator and the argument selector of plugin.cpp

    A shallow embedding of [src/plugin.cpp]: the vendor lookup, the three
    platform enumerators, the presenter and the entry point [plugin_run],
    followed by the properties the specification states about them.

    Conventions of the model.
    - A [std::string] is a [string]; an argument of [argv] is the content of
      the C string (it holds no NUL byte).
    - An [int] is a [Z]; the machine [int] is 32 bits wide on the three
      platforms of the plugin.  The increment of the index counter and the
      conversion [static_cast<int>] are written with their two's-complement
      wrap-around ([to_int]); the subtraction on [size_t] wraps at [2^64].
    - The two output streams are strings, grown by appending.
    - What the operating system answers (files of sysfs, properties of the
      Setup API) is an input of the enumerator. *)

From Stdlib Require Import Bool Arith ZArith List Ascii String Lia.
From Stdlib Require Import DecimalString FinFun.
From Stdlib Require Import DecimalPos.
Import ListNotations.

Local Open Scope string_scope.
Local Open Scope Z_scope.

(** ** The standard library of C++ as the plugin uses it *)

Module Cxx.

(** [::tolower] in the "C" locale: only 'A'..'Z' move. *)
Definition tolower (c : ascii) : ascii :=
  let n := nat_of_ascii c in
  if (65 <=? n)%nat && (n <=? 90)%nat then ascii_of_nat (n + 32) else c.

(** [std::transform(id.begin(), id.end(), id.begin(), ::tolower)]. *)
Fixpoint transform_tolower (s : string) : string :=
  match s with
  | EmptyString => EmptyString
  | String c r => String (tolower c) (transform_tolower r)
  end.

(** [s.find(pat)]: the position of the first occurrence, [None] for [npos]. *)
Definition find (pat s : string) : option nat := String.index 0 pat s.

(** [s.find(c)] for one character. *)
Fixpoint find_char (c : ascii) (s : string) : option nat :=
  match s with
  | EmptyString => None
  | String d r =>
      if Ascii.eqb c d then Some O
      else match find_char c r with
           | Some n => Some (S n)
           | None => None
           end
  end.

(** [s.substr(pos)] and [s.substr(pos, n)], for [pos <= s.size()]. *)
Definition substr_from (pos : nat) (s : string) : string :=
  String.substring pos (String.length s) s.

Definition substr (pos n : nat) (s : string) : string :=
  String.substring pos n s.

(** [s.empty()]. *)
Definition empty (s : string) : bool :=
  match s with EmptyString => true | _ => false end.

(** [isspace] in the "C" locale: space, \t, \n, \v, \f, \r. *)
Definition isspace (c : ascii) : bool :=
  let n := nat_of_ascii c in
  (n =? 32)%nat || ((9 <=? n)%nat && (n <=? 13)%nat).

Definition isdigit (c : ascii) : bool :=
  let n := nat_of_ascii c in (48 <=? n)%nat && (n <=? 57)%nat.

Definition digit_value (c : ascii) : Z := Z.of_nat (nat_of_ascii c) - 48.

Definition newline : ascii := ascii_of_nat 10.
Definition nl : string := String newline EmptyString.

(** The lines [std::getline] delivers from a stream holding [s], until it
    fails: a line ends at '\n' or at the end of the input, and a read that
    extracts nothing at the end of the input fails.  [cur] is the line being
    read, [fresh] tells that nothing was extracted for it yet. *)
Fixpoint getlines_from (s cur : string) (fresh : bool) : list string :=
  match s with
  | EmptyString => if fresh then [] else [cur]
  | String c r =>
      if Ascii.eqb c newline then cur :: getlines_from r EmptyString true
      else getlines_from r (cur ++ String c EmptyString) false
  end.

Definition getlines (s : string) : list string :=
  getlines_from s EmptyString true.

(** [iss >> token]: skip white space, then take the characters up to the next
    white space; [None] when the stream ends before a character is found. *)
Fixpoint skip_space (s : string) : string :=
  match s with
  | String c r => if isspace c then skip_space r else s
  | EmptyString => EmptyString
  end.

Fixpoint take_word (s : string) : string :=
  match s with
  | String c r => if isspace c then EmptyString else String c (take_word r)
  | EmptyString => EmptyString
  end.

Definition extract_token (s : string) : option string :=
  match skip_space s with
  | EmptyString => None
  | w => Some (take_word w)
  end.

(** The 32-bit [int]. *)
Definition INT_MIN : Z := -2147483648.
Definition INT_MAX : Z := 2147483647.

(** Conversion of an integer to [int] (two's complement). *)
Definition to_int (z : Z) : Z := (z + 2147483648) mod 4294967296 - 2147483648.

(** Arithmetic on [size_t] (64 bits). *)
Definition to_size_t (z : Z) : Z := z mod 18446744073709551616.

(** [std::to_string] and [operator<<] on an integer. *)
Definition to_string (z : Z) : string := NilZero.string_of_int (Z.to_int z).

(** [std::stoi(s)]: [strtol] in base 10 skips white space, reads an optional
    sign and the longest run of digits, and ignores what follows; without a
    digit [stoi] throws [std::invalid_argument], and with a value outside
    [int] it throws [std::out_of_range]. *)
Inductive stoi_result : Type :=
| Parsed (v : Z)
| InvalidArgument
| OutOfRange.

Fixpoint digits_prefix (s : string) : string :=
  match s with
  | String c r => if isdigit c then String c (digits_prefix r) else EmptyString
  | EmptyString => EmptyString
  end.

Fixpoint digits_value (acc : Z) (s : string) : Z :=
  match s with
  | String c r => digits_value (10 * acc + digit_value c) r
  | EmptyString => acc
  end.

Definition plus_sign : ascii := ascii_of_nat 43.
Definition minus_sign : ascii := ascii_of_nat 45.

Definition strip_sign (s : string) : bool * string :=
  match s with
  | String c r =>
      if Ascii.eqb c minus_sign then (true, r)
      else if Ascii.eqb c plus_sign then (false, r)
      else (false, s)
  | EmptyString => (false, s)
  end.

Definition stoi (s : string) : stoi_result :=
  let (negative, body) := strip_sign (skip_space s) in
  match digits_prefix body with
  | EmptyString => InvalidArgument
  | ds =>
      let v := if negative then - digits_value 0 ds else digits_value 0 ds in
      if (INT_MIN <=? v) && (v <=? INT_MAX) then Parsed v else OutOfRange
  end.

End Cxx.

(** ** The GPU record and the vendor lookup *)

Record GPUInfo : Type := mkGPUInfo {
  name : string;
  vendor : string;
  driver_version : string;
  pci_id : string;
  index : Z;
  is_active : bool
}.

Definition get_vendor_name (vendor_id : string) : string :=
  let id := Cxx.transform_tolower vendor_id in
  if (id =? "0x10de")%string || (id =? "10de")%string then "NVIDIA"
  else if (id =? "0x1002")%string || (id =? "1002")%string then "AMD"
  else if (id =? "0x8086")%string || (id =? "8086")%string then "Intel"
  else "Unknown".

(** ** Exceptions *)

(** What a C++ computation does: it returns, or it throws; the handlers of
    [plugin_run] tell [std::exception] (with its [what()]) from the rest. *)
Inductive exception : Type :=
| StdException (what : string)
| OtherException.

Inductive outcome (A : Type) : Type :=
| Returned (a : A)
| Threw (e : exception).
Arguments Returned {A} a.
Arguments Threw {A} e.

(** ** The Linux enumerator *)

Module Linux.

(** A file of sysfs or procfs as the enumerator sees it: [fs::exists] is
    false, or the file exists and cannot be opened (every read fails), or it
    is read.  [fs::exists] is taken to answer: a probe that throws (the status
    of the path cannot be had, for another reason than a missing path) is not
    among these states; it ends the enumeration in an exception, which
    [plugin_run_on] takes as [Threw].  What is proved of the records is
    stated of an enumeration that returns. *)
Inductive file : Type :=
| Absent
| Unreadable
| Readable (content : string).

Definition exists_ (f : file) : bool :=
  match f with Absent => false | _ => true end.

Definition lines (f : file) : list string :=
  match f with Readable c => Cxx.getlines c | _ => [] end.

(** One entry of /sys/class/drm with the files read below it. *)
Record entry : Type := mkEntry {
  filename : string;
  uevent : file;          (* <entry>/device/uevent *)
  label : file;           (* <entry>/device/label *)
  product_name : file;    (* <entry>/device/product_name *)
  model : file            (* <entry>/device/model *)
}.

(** /sys/class/drm: missing, or not listable ([fs::directory_iterator]
    throws [fs::filesystem_error]), or listed in the order of the iterator. *)
Inductive drm_dir : Type :=
| DrmAbsent
| DrmFails (what : string)
| DrmListing (entries : list entry).

Record sysfs : Type := mkSysfs {
  drm : drm_dir;
  nvidia_version : file   (* /proc/driver/nvidia/version *)
}.

(** [card_name.find("card") == 0 && card_name.find("-") == npos]. *)
Definition is_card (card_name : string) : bool :=
  match Cxx.find "card" card_name with
  | Some O =>
      match Cxx.find "-" card_name with
      | None => true
      | Some _ => false
      end
  | _ => false
  end.

(** The locals of the uevent loop: [gpu.pci_id], [vendor_id], [device_id]. *)
Record uevent_state : Type := mkUevent {
  u_pci_id : string;
  u_vendor_id : string;
  u_device_id : string
}.

Definition uevent_line (st : uevent_state) (line : string) : uevent_state :=
  match Cxx.find "PCI_ID=" line with
  | Some O =>
      let pci := Cxx.substr_from 7 line in
      match Cxx.find_char ":" pci with
      | Some colon =>
          mkUevent pci (Cxx.substr 0 colon pci) (Cxx.substr_from (colon + 1) pci)
      | None => mkUevent pci (u_vendor_id st) (u_device_id st)
      end
  | _ => st
  end.

Definition scan_uevent (ls : list string) : uevent_state :=
  fold_left uevent_line ls (mkUevent "" "" "").

(** The uevent block: [pci_id] and [vendor] of the record after it. *)
Definition read_uevent (f : file) : string * string :=
  if exists_ f then
    let st := scan_uevent (lines f) in
    (u_pci_id st, get_vendor_name (u_vendor_id st))
  else ("", "").

(** One candidate of [name_paths]: the first line, when the file exists, the
    read succeeds and the line is not empty. *)
Definition read_name (f : file) : option string :=
  if exists_ f then
    match lines f with
    | l :: _ => if Cxx.empty l then None else Some l
    | [] => None
    end
  else None.

(** The loop over [name_paths], stopped by [break] at the first name. *)
Fixpoint first_name (paths : list file) : option string :=
  match paths with
  | [] => None
  | f :: rest =>
      match read_name f with
      | Some n => Some n
      | None => first_name rest
      end
  end.

Definition name_paths (e : entry) : list file :=
  [label e; product_name e; model e].

(** The name built when no candidate gave one. *)
Definition fallback_name (vendor pci_id : string) : string :=
  if negb (Cxx.empty pci_id) then vendor ++ " GPU [" ++ pci_id ++ "]"
  else vendor ++ " GPU".

(** One line of /proc/driver/nvidia/version. *)
Definition version_line (driver : string) (line : string) : string :=
  match Cxx.find "Kernel Module" line with
  | Some pos =>
      match Cxx.extract_token (Cxx.substr_from (pos + 13) line) with
      | Some version => version
      | None => driver
      end
  | None => driver
  end.

Definition read_driver_version (vendor : string) (nv : file) : string :=
  if (vendor =? "NVIDIA")%string then
    if exists_ nv then fold_left version_line (lines nv) "" else ""
  else "".

(** The body of the loop for one card entry. *)
Definition card_gpu (nv : file) (gpu_index : Z) (e : entry) : GPUInfo :=
  let (pci, ven) := read_uevent (uevent e) in
  let nm :=
    match first_name (name_paths e) with
    | Some n => n
    | None => fallback_name ven pci
    end in
  mkGPUInfo nm ven (read_driver_version ven nv) pci
            gpu_index (gpu_index =? 0).

(** One turn of the loop over the directory; the state is [gpu_index] and
    [gpus]. *)
Definition visit_entry (nv : file) (st : Z * list GPUInfo) (e : entry)
  : Z * list GPUInfo :=
  let (gpu_index, gpus) := st in
  if is_card (filename e)
  then (Cxx.to_int (gpu_index + 1), (gpus ++ [card_gpu nv gpu_index e])%list)
  else st.

Definition detect_gpus_linux (h : sysfs) : outcome (list GPUInfo) :=
  match drm h with
  | DrmAbsent => Returned []
  | DrmFails what => Threw (StdException what)
  | DrmListing entries =>
      Returned (snd (fold_left (visit_entry (nvidia_version h)) entries (0, [])))
  end.

End Linux.

(** ** The Windows enumerator *)

Module Windows.

(** The string properties of one display adapter; [None] when
    [SetupDiGetDeviceRegistryPropertyA] fails. *)
Record device : Type := mkDevice {
  devicedesc : option string;   (* SPDRP_DEVICEDESC *)
  mfg : option string;          (* SPDRP_MFG *)
  driver : option string;       (* SPDRP_DRIVER *)
  hardwareid : option string    (* SPDRP_HARDWAREID *)
}.

(** [SetupDiGetClassDevs]: INVALID_HANDLE_VALUE, or the devices that
    [SetupDiEnumDeviceInfo] delivers, in its order. *)
Inductive setup_api : Type :=
| InvalidHandle
| DevInfoSet (devices : list device).

Definition or_empty (p : option string) : string :=
  match p with Some s => s | None => "" end.

(** PCI\VEN_XXXX&DEV_XXXX. *)
Definition parse_hwid (hwid : string) : string :=
  match Cxx.find "VEN_" hwid, Cxx.find "DEV_" hwid with
  | Some ven_pos, Some dev_pos =>
      Cxx.substr (ven_pos + 4) 4 hwid ++ ":" ++ Cxx.substr (dev_pos + 4) 4 hwid
  | _, _ => ""
  end.

Definition adapter_gpu (gpu_index : Z) (d : device) : GPUInfo :=
  mkGPUInfo (or_empty (devicedesc d)) (or_empty (mfg d)) (or_empty (driver d))
            (match hardwareid d with Some hwid => parse_hwid hwid | None => "" end)
            gpu_index (gpu_index =? 0).

Definition visit_device (st : Z * list GPUInfo) (d : device) : Z * list GPUInfo :=
  let (gpu_index, gpus) := st in
  (Cxx.to_int (gpu_index + 1), (gpus ++ [adapter_gpu gpu_index d])%list).

Definition detect_gpus_windows (h : setup_api) : list GPUInfo :=
  match h with
  | InvalidHandle => []
  | DevInfoSet devices => snd (fold_left visit_device devices (0, []))
  end.

End Windows.

(** ** The macOS placeholder and the platform switch *)

Definition detect_gpus_macos : list GPUInfo :=
  [mkGPUInfo "macOS GPU (detection not implemented)" "Unknown" "N/A" "N/A" 0 true].

(** The platform the plugin is built for, with what its system answers. *)
Inductive host : Type :=
| OnLinux (h : Linux.sysfs)
| OnWindows (h : Windows.setup_api)
| OnMacOS
| OnOther.

Definition detect_gpus (h : host) : outcome (list GPUInfo) :=
  match h with
  | OnLinux l => Linux.detect_gpus_linux l
  | OnWindows w => Returned (Windows.detect_gpus_windows w)
  | OnMacOS => Returned detect_gpus_macos
  | OnOther => Returned []
  end.

(** ** The presenter *)

Module Color.
Definition esc : string := String (ascii_of_nat 27) EmptyString.
Definition RESET : string := esc ++ "[0m".
Definition BOLD : string := esc ++ "[1m".
Definition CYAN : string := esc ++ "[36m".
Definition GREEN : string := esc ++ "[32m".
Definition YELLOW : string := esc ++ "[33m".
Definition BLUE : string := esc ++ "[34m".
Definition DIM : string := esc ++ "[2m".
End Color.

(** [std::string(n, c)]. *)
Fixpoint repeat_char (n : nat) (c : ascii) : string :=
  match n with
  | O => EmptyString
  | S k => String c (repeat_char k c)
  end.

(** Each printing function is the text it appends to [std::cout]. *)
Definition print_header (text : string) : string :=
  Cxx.nl ++ Color.BOLD ++ Color.CYAN ++ text ++ Color.RESET ++ Cxx.nl
  ++ repeat_char 50 "=" ++ Cxx.nl.

Definition print_field (key value : string) : string :=
  "  " ++ Color.GREEN ++ key ++ ": " ++ Color.RESET ++ value ++ Cxx.nl.

Definition known (s : string) : bool :=
  negb (Cxx.empty s) && negb (s =? "N/A")%string.

Definition display_gpu (gpu : GPUInfo) (brief : bool) : string :=
  if brief then
    Color.BOLD ++ "GPU " ++ Cxx.to_string (index gpu) ++ Color.RESET
    ++ (if is_active gpu
        then " " ++ Color.GREEN ++ "(Active)" ++ Color.RESET else "")
    ++ Cxx.nl
    ++ print_field "Name" (name gpu)
    ++ print_field "Vendor" (vendor gpu)
    ++ (if negb (Cxx.empty (pci_id gpu))
        then print_field "PCI ID" (pci_id gpu) else "")
  else
    print_header ("GPU " ++ Cxx.to_string (index gpu)
                  ++ (if is_active gpu then " (Active)" else ""))
    ++ print_field "Name" (name gpu)
    ++ print_field "Vendor" (vendor gpu)
    ++ (if known (driver_version gpu)
        then print_field "Driver Version" (driver_version gpu) else "")
    ++ (if known (pci_id gpu)
        then print_field "PCI ID" (pci_id gpu) else "").

(** The loop of [display_all_gpus]: a blank line after every record but the
    last. *)
Fixpoint display_each (gpus : list GPUInfo) : string :=
  match gpus with
  | [] => ""
  | [gpu] => display_gpu gpu true
  | gpu :: rest => display_gpu gpu true ++ Cxx.nl ++ display_each rest
  end.

Definition display_all_gpus (gpus : list GPUInfo) : string :=
  match gpus with
  | [] => Color.YELLOW ++ "No GPUs detected." ++ Color.RESET ++ Cxx.nl
  | _ =>
      print_header ("All GPUs ("
                    ++ Cxx.to_string (Z.of_nat (List.length gpus))
                    ++ " detected)")
      ++ display_each gpus
  end.

Definition display_help : string :=
  Color.BOLD ++ "GPU Plugin for whatsmycli" ++ Color.RESET ++ Cxx.nl ++ Cxx.nl
  ++ "Usage:" ++ Cxx.nl
  ++ "  whatsmy gpu           " ++ Color.DIM ++ "# Show active/default GPU"
  ++ Color.RESET ++ Cxx.nl
  ++ "  whatsmy gpu all       " ++ Color.DIM ++ "# Show all GPUs"
  ++ Color.RESET ++ Cxx.nl
  ++ "  whatsmy gpu <index>   " ++ Color.DIM ++ "# Show specific GPU by index"
  ++ Color.RESET ++ Cxx.nl
  ++ "  whatsmy gpu help      " ++ Color.DIM ++ "# Show this help"
  ++ Color.RESET ++ Cxx.nl.

(** ** The entry point *)

(** What one run leaves behind: the value returned and the text written to
    [std::cout] and to [std::cerr]. *)
Record run : Type := mkRun {
  exit_code : Z;
  out : string;
  err : string
}.

Definition no_gpu_warning : string :=
  Color.YELLOW ++ "Warning: No GPUs detected." ++ Color.RESET ++ Cxx.nl
  ++ "This could mean:" ++ Cxx.nl
  ++ "  - No GPU is present in the system" ++ Cxx.nl
  ++ "  - GPU drivers are not installed" ++ Cxx.nl
  ++ "  - Insufficient permissions to access GPU information" ++ Cxx.nl.

Definition out_of_range_error (idx : Z) (size : nat) : string :=
  Color.YELLOW ++ "Error: GPU index " ++ Cxx.to_string idx ++ " out of range."
  ++ Color.RESET ++ Cxx.nl
  ++ "Available GPUs: 0-" ++ Cxx.to_string (Cxx.to_size_t (Z.of_nat size - 1))
  ++ Cxx.nl.

Definition invalid_argument_error (arg : string) : string :=
  Color.YELLOW ++ "Error: Invalid argument '" ++ arg ++ "'." ++ Color.RESET
  ++ Cxx.nl
  ++ "Use 'whatsmy gpu help' for usage information." ++ Cxx.nl.

Definition too_many_arguments_error : string :=
  Color.YELLOW ++ "Error: Too many arguments." ++ Color.RESET ++ Cxx.nl
  ++ "Use 'whatsmy gpu help' for usage information." ++ Cxx.nl.

Definition exception_error (e : exception) : string :=
  match e with
  | StdException what =>
      Color.YELLOW ++ "Error: " ++ what ++ Color.RESET ++ Cxx.nl
  | OtherException =>
      Color.YELLOW ++ "Error: Unknown exception occurred." ++ Color.RESET
      ++ Cxx.nl
  end.

(** The first record with [is_active], as the loop of the no-argument branch
    finds it. *)
Fixpoint first_active (gpus : list GPUInfo) : option GPUInfo :=
  match gpus with
  | [] => None
  | gpu :: rest => if is_active gpu then Some gpu else first_active rest
  end.

(** The branch that takes the argument for an index: the inner [try]. *)
Definition select_index (gpus : list GPUInfo) (arg : string) : option run :=
  match Cxx.stoi arg with
  | Cxx.Parsed idx =>
      if (idx <? 0) || (idx >=? Cxx.to_int (Z.of_nat (List.length gpus)))
      then Some (mkRun 1 "" (out_of_range_error idx (List.length gpus)))
      else match nth_error gpus (Z.to_nat idx) with
           | Some gpu => Some (mkRun 0 (display_gpu gpu false) "")
           | None => None
           end
  | Cxx.InvalidArgument | Cxx.OutOfRange =>
      Some (mkRun 1 "" (invalid_argument_error arg))
  end.

(** [plugin_run] after [detect_gpus] has returned or thrown.  [None] is
    undefined behaviour: [argv[1]] read when [argv] has no such element, or
    a vector read out of bounds. *)
Definition plugin_run_on (detected : outcome (list GPUInfo))
    (argc : Z) (argv : list string) : option run :=
  match detected with
  | Threw e => Some (mkRun 1 "" (exception_error e))
  | Returned [] => Some (mkRun 1 "" no_gpu_warning)
  | Returned ((gpu0 :: _) as gpus) =>
      if argc =? 1 then
        match first_active gpus with
        | Some gpu => Some (mkRun 0 (display_gpu gpu false) "")
        | None => Some (mkRun 0 (display_gpu gpu0 false) "")
        end
      else if argc =? 2 then
        match nth_error argv 1 with
        | None => None
        | Some arg =>
            if (arg =? "help")%string || (arg =? "--help")%string
               || (arg =? "-h")%string
            then Some (mkRun 0 display_help "")
            else if (arg =? "all")%string
            then Some (mkRun 0 (display_all_gpus gpus) "")
            else select_index gpus arg
        end
      else Some (mkRun 1 "" too_many_arguments_error)
  end.

Definition plugin_run (h : host) (argc : Z) (argv : list string) : option run :=
  plugin_run_on (detect_gpus h) argc argv.

(** ** The enumeration loops, unrolled *)

(** The records a loop pushes for the devices [xs] when its counter starts at
    [i]: both enumerators build the record of a device from the counter and
    increment the counter after it. *)
Fixpoint number {A : Type} (make : Z -> A -> GPUInfo) (i : Z) (xs : list A)
  : list GPUInfo :=
  match xs with
  | [] => []
  | x :: rest => make i x :: number make (Cxx.to_int (i + 1)) rest
  end.

(** The entries of /sys/class/drm that the Linux loop takes for cards. *)
Definition cards (entries : list Linux.entry) : list Linux.entry :=
  filter (fun e => Linux.is_card (Linux.filename e)) entries.

(** No candidate of [name_paths] gives a name. *)
Definition unnamed (e : Linux.entry) : Prop :=
  Linux.read_name (Linux.label e) = None /\
  Linux.read_name (Linux.product_name e) = None /\
  Linux.read_name (Linux.model e) = None.

(** ** The paths of a run *)

(** A success path: a record, the usage text or the list of all records on
    [std::cout], and nothing on [std::cerr]. *)
Definition success_path (detected : outcome (list GPUInfo)) (r : run) : Prop :=
  err r = ""
  /\ exists gpus,
       detected = Returned gpus
       /\ (out r = display_help
           \/ out r = display_all_gpus gpus
           \/ exists gpu, In gpu gpus /\ out r = display_gpu gpu false).

(** A handled error: one of the five diagnostics on [std::cerr], and nothing
    on [std::cout]. *)
Definition handled_error (r : run) : Prop :=
  out r = "" /\ err r <> ""
  /\ (err r = no_gpu_warning
      \/ (exists idx size, err r = out_of_range_error idx size)
      \/ (exists arg, err r = invalid_argument_error arg)
      \/ err r = too_many_arguments_error
      \/ exists e, err r = exception_error e).

(** ** The words of the specification *)

Module Spec.

(** The vendor names of the data model. *)
Definition vendor_names : list string := ["NVIDIA"; "AMD"; "Intel"; "Unknown"].

(** The fixed lookup table of the vendor identifiers. *)
Definition vendor_table : list (string * string) :=
  [("10de", "NVIDIA"); ("1002", "AMD"); ("8086", "Intel")].

(** "tolerates both 0x-prefixed and bare hex forms". *)
Definition strip_hex_prefix (s : string) : string :=
  match s with
  | String c0 (String c1 r) =>
      if Ascii.eqb c0 "0" && (Ascii.eqb c1 "x" || Ascii.eqb c1 "X")
      then r else s
  | _ => s
  end.

(** "The lookup is case-insensitive". *)
Definition same_ignoring_case (a b : string) : bool :=
  (Cxx.transform_tolower a =? Cxx.transform_tolower b)%string.

(** The same identifier written in capitals. *)
Definition toupper (c : ascii) : ascii :=
  let n := nat_of_ascii c in
  if (97 <=? n)%nat && (n <=? 122)%nat then ascii_of_nat (n - 32) else c.

Fixpoint in_capitals (s : string) : string :=
  match s with
  | EmptyString => EmptyString
  | String c r => String (toupper c) (in_capitals r)
  end.

Fixpoint lookup (table : list (string * string)) (hex : string) : string :=
  match table with
  | [] => "Unknown"
  | (id, vendor_name) :: rest =>
      if same_ignoring_case hex id then vendor_name else lookup rest hex
  end.

Definition vendor_lookup (vendor_id : string) : string :=
  lookup vendor_table (strip_hex_prefix vendor_id).

(** The recognized keywords of the argument table. *)
Definition keywords : list string := ["help"; "--help"; "-h"; "all"].

Definition recognized (arg : string) : bool :=
  existsb (String.eqb arg) keywords.

(** A decimal numeral: one digit or more, and nothing else. *)
Fixpoint all_digits (s : string) : bool :=
  match s with
  | EmptyString => true
  | String c r => Cxx.isdigit c && all_digits r
  end.

Definition decimal_numeral (s : string) : bool :=
  negb (Cxx.empty s) && all_digits s.

(** Its value, by position. *)
Fixpoint numeral_value (s : string) : Z :=
  match s with
  | EmptyString => 0
  | String c r =>
      Cxx.digit_value c * 10 ^ Z.of_nat (String.length r) + numeral_value r
  end.

(** [s] occurs in [text]. *)
Definition mentions (text s : string) : bool :=
  match Cxx.find s text with Some _ => true | None => false end.

End Spec.

(** ** Sample systems *)

Module Sample.

Definition uevent_of (driver pci : string) : string :=
  "DRIVER=" ++ driver ++ Cxx.nl
  ++ "PCI_CLASS=30000" ++ Cxx.nl
  ++ "PCI_ID=" ++ pci ++ Cxx.nl
  ++ "PCI_SLOT_NAME=0000:01:00.0" ++ Cxx.nl.

(** A card whose uevent file is read and that has no name file. *)
Definition card (fname driver pci : string) : Linux.entry :=
  Linux.mkEntry fname (Linux.Readable (uevent_of driver pci))
                Linux.Absent Linux.Absent Linux.Absent.

(** A connector entry or a render node: only its name matters. *)
Definition other (fname : string) : Linux.entry :=
  Linux.mkEntry fname Linux.Absent Linux.Absent Linux.Absent Linux.Absent.

(** Two cards, an NVIDIA one with its kernel module loaded and an AMD
    one. *)
Definition two_cards : Linux.sysfs :=
  Linux.mkSysfs
    (Linux.DrmListing
       [card "card0" "nvidia" "10DE:1B80"; other "card0-HDMI-A-1";
        other "renderD128"; card "card1" "amdgpu" "1002:6798";
        other "version"])
    (Linux.Readable
       ("NVRM version: NVIDIA UNIX x86_64 Kernel Module  535.183.01  Sun May 12"
        ++ Cxx.nl ++ "GCC version:  gcc version 12.2.0" ++ Cxx.nl)).

(** A system without /sys/class/drm. *)
Definition no_drm : Linux.sysfs := Linux.mkSysfs Linux.DrmAbsent Linux.Absent.

(** A card below which there is no uevent file. *)
Definition bare_card : Linux.sysfs :=
  Linux.mkSysfs (Linux.DrmListing [other "card0"]) Linux.Absent.

(** A display adapter whose manufacturer property cannot be read. *)
Definition adapter_without_mfg : Windows.setup_api :=
  Windows.DevInfoSet
    [Windows.mkDevice (Some "Intel(R) UHD Graphics 630") None
       (Some "{4d36e968-e325-11ce-bfc1-08002be10318}\0001")
       (Some "PCI\VEN_8086&DEV_3E92&SUBSYS_86941043&REV_00")].

(** A display adapter whose description property cannot be read. *)
Definition adapter_without_description : Windows.setup_api :=
  Windows.DevInfoSet
    [Windows.mkDevice None (Some "AMD") None
       (Some "PCI\VEN_1002&DEV_6798&SUBSYS_30001002&REV_00")].

Definition nvidia_gpu : GPUInfo :=
  mkGPUInfo "NVIDIA GPU [10DE:1B80]" "NVIDIA" "535.183.01" "10DE:1B80" 0 true.

Definition amd_gpu : GPUInfo :=
  mkGPUInfo "AMD GPU [1002:6798]" "AMD" "" "1002:6798" 1 false.

End Sample.

(** ** Texts *)

Module Text.

(** Every character of [s] passes [p]. *)
Fixpoint every_char (p : ascii -> bool) (s : string) : bool :=
  match s with
  | EmptyString => true
  | String c r => p c && every_char p r
  end.

(** [c] does not occur in [s]. *)
Definition without_char (c : ascii) (s : string) : bool :=
  every_char (fun d => negb (Ascii.eqb c d)) s.

(** [s] holds no line break. *)
Definition single_line (s : string) : bool := without_char Cxx.newline s.

(** [s] holds no white space. *)
Definition no_space (s : string) : bool :=
  every_char (fun d => negb (Cxx.isspace d)) s.

(** The content of a text file whose lines are [ls], each ended by a line
    break. *)
Fixpoint unlines (ls : list string) : string :=
  match ls with
  | [] => ""
  | l :: rest => l ++ Cxx.nl ++ unlines rest
  end.

(** A hexadecimal digit. *)
Definition is_hex_digit (c : ascii) : bool :=
  let n := nat_of_ascii c in
  ((48 <=? n)%nat && (n <=? 57)%nat)
  || ((65 <=? n)%nat && (n <=? 70)%nat)
  || ((97 <=? n)%nat && (n <=? 102)%nat).

(** The test [line.find("PCI_ID=") == 0] of the uevent loop. *)
Definition pci_id_line (line : string) : bool :=
  match Cxx.find "PCI_ID=" line with
  | Some O => true
  | _ => false
  end.

(** [tail] is empty or starts with white space. *)
Definition ends_word (tail : string) : bool :=
  match tail with
  | EmptyString => true
  | String c _ => Cxx.isspace c
  end.

End Text.

(** * Properties *)

(** ** Evaluation on samples *)

Example detect_two_cards :
  detect_gpus (OnLinux Sample.two_cards)
  = Returned [Sample.nvidia_gpu; Sample.amd_gpu].
Proof. vm_compute. reflexivity. Qed.

Example detect_bare_card :
  detect_gpus (OnLinux Sample.bare_card)
  = Returned [mkGPUInfo " GPU" "" "" "" 0 true].
Proof. vm_compute. reflexivity. Qed.

Example detect_adapter :
  detect_gpus (OnWindows Sample.adapter_without_mfg)
  = Returned [mkGPUInfo "Intel(R) UHD Graphics 630" ""
                "{4d36e968-e325-11ce-bfc1-08002be10318}\0001" "8086:3E92" 0 true].
Proof. vm_compute. reflexivity. Qed.

Example get_vendor_name_upper : get_vendor_name "0X10DE" = "NVIDIA".
Proof. reflexivity. Qed.

Example stoi_samples :
  Cxx.stoi "5abc" = Cxx.Parsed 5 /\ Cxx.stoi "-1" = Cxx.Parsed (-1) /\
  Cxx.stoi "xyz" = Cxx.InvalidArgument /\
  Cxx.stoi "2147483648" = Cxx.OutOfRange /\
  Cxx.stoi " +07" = Cxx.Parsed 7 /\ Cxx.stoi "-" = Cxx.InvalidArgument.
Proof. repeat split; reflexivity. Qed.

Example getlines_samples :
  Cxx.getlines "ab" = ["ab"] /\ Cxx.getlines "" = [] /\
  Cxx.getlines (Cxx.nl ++ "x" ++ Cxx.nl) = [""; "x"].
Proof. repeat split; reflexivity. Qed.

Example to_string_samples :
  Cxx.to_string 0 = "0" /\ Cxx.to_string 12 = "12" /\ Cxx.to_string (-3) = "-3".
Proof. repeat split; reflexivity. Qed.

(** ** Characters and strings *)

Lemma tolower_is_zero c : Ascii.eqb (Cxx.tolower c) "0" = Ascii.eqb c "0".
Proof. destruct c as [[] [] [] [] [] [] [] []]; reflexivity. Qed.

Lemma tolower_is_x c :
  Ascii.eqb (Cxx.tolower c) "x" = Ascii.eqb c "x" || Ascii.eqb c "X".
Proof. destruct c as [[] [] [] [] [] [] [] []]; reflexivity. Qed.

Lemma tolower_idempotent c : Cxx.tolower (Cxx.tolower c) = Cxx.tolower c.
Proof. destruct c as [[] [] [] [] [] [] [] []]; reflexivity. Qed.

Lemma tolower_toupper c : Cxx.tolower (Spec.toupper c) = Cxx.tolower c.
Proof. destruct c as [[] [] [] [] [] [] [] []]; reflexivity. Qed.

Lemma transform_tolower_idempotent s :
  Cxx.transform_tolower (Cxx.transform_tolower s) = Cxx.transform_tolower s.
Proof.
  induction s as [|c r IH]; simpl; [reflexivity|].
  now rewrite tolower_idempotent, IH.
Qed.

Lemma transform_tolower_capitals s :
  Cxx.transform_tolower (Spec.in_capitals s) = Cxx.transform_tolower s.
Proof.
  induction s as [|c r IH]; simpl; [reflexivity|].
  now rewrite tolower_toupper, IH.
Qed.

(** Stripping the prefix before or after lower-casing. *)
Lemma tolower_strip_hex_prefix s :
  Cxx.transform_tolower (Spec.strip_hex_prefix s)
  = match Cxx.transform_tolower s with
    | String a (String b r) =>
        if Ascii.eqb a "0" && Ascii.eqb b "x" then r
        else Cxx.transform_tolower s
    | _ => Cxx.transform_tolower s
    end.
Proof.
  destruct s as [|c0 [|c1 r]]; try reflexivity.
  cbn [Spec.strip_hex_prefix Cxx.transform_tolower].
  rewrite tolower_is_zero, tolower_is_x.
  destruct (Ascii.eqb c0 "0" && (Ascii.eqb c1 "x" || Ascii.eqb c1 "X"));
    reflexivity.
Qed.

(** The six comparisons of [get_vendor_name] on a lower-cased identifier are
    three comparisons after the prefix is dropped. *)
Lemma lookup_lowered t :
  ((if (t =? "0x10de") || (t =? "10de") then "NVIDIA"
    else if (t =? "0x1002") || (t =? "1002") then "AMD"
    else if (t =? "0x8086") || (t =? "8086") then "Intel"
    else "Unknown")
   = let u := match t with
              | String a (String b r) =>
                  if Ascii.eqb a "0" && Ascii.eqb b "x" then r else t
              | _ => t
              end in
     if u =? "10de" then "NVIDIA"
     else if u =? "1002" then "AMD"
     else if u =? "8086" then "Intel"
     else "Unknown")%string.
Proof.
  destruct t as [|a [|b r]].
  - reflexivity.
  - cbn. destruct (Ascii.eqb a "0"), (Ascii.eqb a "1"), (Ascii.eqb a "8");
      reflexivity.
  - destruct (Ascii.eqb_spec a "0") as [->|Ha].
    + destruct (Ascii.eqb_spec b "x") as [->|Hb].
      * cbn. rewrite !orb_false_r. reflexivity.
      * apply Ascii.eqb_neq in Hb. cbn. rewrite Hb. reflexivity.
    + apply Ascii.eqb_neq in Ha. cbn. rewrite Ha. reflexivity.
Qed.

Lemma get_vendor_name_refines vendor_id :
  get_vendor_name vendor_id = Spec.vendor_lookup vendor_id.
Proof.
  unfold get_vendor_name, Spec.vendor_lookup. cbv zeta.
  rewrite lookup_lowered. cbv zeta.
  cbn [Spec.lookup Spec.vendor_table].
  unfold Spec.same_ignoring_case.
  rewrite tolower_strip_hex_prefix. reflexivity.
Qed.

Lemma get_vendor_name_in_names vendor_id :
  In (get_vendor_name vendor_id) Spec.vendor_names.
Proof.
  unfold get_vendor_name, Spec.vendor_names. cbv zeta.
  repeat match goal with |- context [if ?b then _ else _] => destruct b end;
    simpl; tauto.
Qed.

(** C6. The vendor lookup of the code is the lookup of the specification:
    the identifier, with or without a 0x or 0X prefix, is compared without
    regard to case with the three entries of the table (10de NVIDIA, 1002 AMD,
    8086 Intel), and every other string gives Unknown.  Lower-casing or
    capitalising the identifier does not change the answer, every entry of
    the table is found bare and with either prefix, and "0x10DE", "10de" and
    "0X10DE" give NVIDIA. *)
Theorem get_vendor_name_lookup :
  (forall vendor_id, get_vendor_name vendor_id = Spec.vendor_lookup vendor_id)
  /\ (forall vendor_id,
        get_vendor_name (Cxx.transform_tolower vendor_id)
        = get_vendor_name vendor_id
        /\ get_vendor_name (Spec.in_capitals vendor_id)
           = get_vendor_name vendor_id)
  /\ Forall (fun entry =>
               get_vendor_name (fst entry) = snd entry
               /\ get_vendor_name ("0x" ++ fst entry) = snd entry
               /\ get_vendor_name ("0X" ++ fst entry) = snd entry
               /\ get_vendor_name (Spec.in_capitals (fst entry)) = snd entry)
            Spec.vendor_table
  /\ get_vendor_name "0x10DE" = "NVIDIA"
  /\ get_vendor_name "10de" = "NVIDIA"
  /\ get_vendor_name "0X10DE" = "NVIDIA"
  /\ get_vendor_name "1234" = "Unknown"
  /\ get_vendor_name "" = "Unknown".
Proof.
  split; [exact get_vendor_name_refines|].
  split.
  { intro s. unfold get_vendor_name.
    now rewrite transform_tolower_idempotent, transform_tolower_capitals. }
  split; [repeat constructor|].
  repeat split; reflexivity.
Qed.

(** ** Machine integers *)

Lemma to_int_small z :
  Cxx.INT_MIN <= z <= Cxx.INT_MAX -> Cxx.to_int z = z.
Proof.
  unfold Cxx.INT_MIN, Cxx.INT_MAX, Cxx.to_int. intros H.
  rewrite Z.mod_small; lia.
Qed.

Lemma to_int_le z : 0 <= z -> Cxx.to_int z <= z.
Proof.
  unfold Cxx.to_int. intros H.
  pose proof (Z.mod_le (z + 2147483648) 4294967296). lia.
Qed.

Lemma to_size_t_small z :
  0 <= z < 18446744073709551616 -> Cxx.to_size_t z = z.
Proof. unfold Cxx.to_size_t. intros H. now apply Z.mod_small. Qed.

(** ** The loops of the enumerators *)

Section Numbering.

Context {A : Type} (make : Z -> A -> GPUInfo).

(** The loop that pushes one record for every device. *)
Lemma fold_push xs : forall i acc,
  snd (fold_left
         (fun (st : Z * list GPUInfo) x =>
            let (gpu_index, gpus) := st in
            (Cxx.to_int (gpu_index + 1), (gpus ++ [make gpu_index x])%list))
         xs (i, acc))
  = (acc ++ number make i xs)%list.
Proof.
  induction xs as [|x rest IH]; intros i acc; simpl.
  - now rewrite app_nil_r.
  - rewrite IH, <- app_assoc. reflexivity.
Qed.

Lemma number_length xs : forall i, List.length (number make i xs) = List.length xs.
Proof. induction xs as [|x rest IH]; intro i; simpl; [|rewrite IH]; reflexivity. Qed.

(** Every pushed record is the record of its device. *)
Lemma number_Forall2 (R : A -> GPUInfo -> Prop) :
  (forall i x, R x (make i x)) ->
  forall xs i, Forall2 R xs (number make i xs).
Proof.
  intros HR xs. induction xs as [|x rest IH]; intro i; simpl; constructor; auto.
Qed.

Lemma number_Forall (P : GPUInfo -> Prop) :
  (forall i x, P (make i x)) ->
  forall xs i, Forall P (number make i xs).
Proof.
  intros HP xs. induction xs as [|x rest IH]; intro i; simpl; constructor; auto.
Qed.

Hypothesis make_index : forall i x, index (make i x) = i.

(** As long as the counter stays within [int], the indices count up from
    its first value. *)
Lemma number_index xs : forall i,
  0 <= i -> i + Z.of_nat (List.length xs) <= Cxx.INT_MAX + 1 ->
  map index (number make i xs)
  = map (fun k => i + Z.of_nat k) (seq 0 (List.length xs)).
Proof.
  induction xs as [|x rest IH]; intros i Hi Hlen; [reflexivity|].
  cbn [number map List.length seq]. rewrite make_index. f_equal; [lia|].
  destruct rest as [|y rest']; [reflexivity|].
  rewrite to_int_small.
  - rewrite IH.
    + rewrite <- seq_shift, map_map. apply map_ext. intro k. lia.
    + lia.
    + cbn [List.length] in *. lia.
  - cbn [List.length] in Hlen. unfold Cxx.INT_MIN, Cxx.INT_MAX in *. lia.
Qed.

End Numbering.

Lemma linux_make_index nv i e : index (Linux.card_gpu nv i e) = i.
Proof. unfold Linux.card_gpu. destruct (Linux.read_uevent _). reflexivity. Qed.

Lemma linux_make_active nv i e :
  is_active (Linux.card_gpu nv i e) = (i =? 0).
Proof. unfold Linux.card_gpu. destruct (Linux.read_uevent _). reflexivity. Qed.

(** The Linux loop pushes the records of the card entries, in the order of
    the directory. *)
Lemma linux_loop nv entries : forall i acc,
  snd (fold_left (Linux.visit_entry nv) entries (i, acc))
  = (acc ++ number (Linux.card_gpu nv) i (cards entries))%list.
Proof.
  unfold cards.
  induction entries as [|e rest IH]; intros i acc; simpl.
  - now rewrite app_nil_r.
  - destruct (Linux.is_card (Linux.filename e)); simpl.
    + rewrite IH, <- app_assoc. reflexivity.
    + apply IH.
Qed.

Lemma detect_gpus_linux_listing nv entries :
  Linux.detect_gpus_linux (Linux.mkSysfs (Linux.DrmListing entries) nv)
  = Returned (number (Linux.card_gpu nv) 0 (cards entries)).
Proof. unfold Linux.detect_gpus_linux. simpl. now rewrite linux_loop. Qed.

Lemma detect_gpus_windows_set devices :
  Windows.detect_gpus_windows (Windows.DevInfoSet devices)
  = number Windows.adapter_gpu 0 devices.
Proof.
  unfold Windows.detect_gpus_windows, Windows.visit_device.
  now rewrite (fold_push Windows.adapter_gpu).
Qed.

(** Whatever the platform, the result of the enumeration is numbered by a
    counter started at 0 (the placeholder of macOS is its own single
    record). *)
Lemma detect_gpus_numbered h gpus :
  detect_gpus h = Returned gpus ->
  exists (A : Type) (make : Z -> A -> GPUInfo) (xs : list A),
    gpus = number make 0 xs
    /\ (forall i x, index (make i x) = i)
    /\ (forall i x, is_active (make i x) = (i =? 0)).
Proof.
  destruct h as [[d nv] | w | | ]; simpl.
  - destruct d as [|what|entries].
    + intros [= <-]. exists unit, (fun i _ => mkGPUInfo "" "" "" "" i (i =? 0)), [].
      now repeat split.
    + discriminate.
    + rewrite detect_gpus_linux_listing. intros [= <-].
      exists Linux.entry, (Linux.card_gpu nv), (cards entries).
      split; [reflexivity|]. split;
        [apply linux_make_index | apply linux_make_active].
  - intros [= <-]. destruct w as [|devices].
    + exists Windows.device, Windows.adapter_gpu, []. now repeat split.
    + rewrite detect_gpus_windows_set.
      exists Windows.device, Windows.adapter_gpu, devices. now repeat split.
  - intros [= <-].
    exists unit,
      (fun i _ => mkGPUInfo "macOS GPU (detection not implemented)" "Unknown"
                    "N/A" "N/A" i (i =? 0)), [tt].
    now repeat split.
  - intros [= <-]. exists unit, (fun i _ => mkGPUInfo "" "" "" "" i (i =? 0)), [].
    now repeat split.
Qed.

Lemma detect_gpus_indices h gpus :
  detect_gpus h = Returned gpus ->
  Z.of_nat (List.length gpus) <= Cxx.INT_MAX ->
  map index gpus = map Z.of_nat (seq 0 (List.length gpus)).
Proof.
  intros Hd Hlen.
  destruct (detect_gpus_numbered h gpus Hd) as (A & make & xs & -> & Hi & _).
  rewrite number_length in *.
  rewrite (number_index make Hi); [reflexivity | lia | lia].
Qed.

Lemma detect_gpus_active_flag h gpus :
  detect_gpus h = Returned gpus ->
  Forall (fun g => is_active g = (index g =? 0)) gpus.
Proof.
  intros Hd.
  destruct (detect_gpus_numbered h gpus Hd) as (A & make & xs & -> & Hi & Ha).
  apply number_Forall. intros i x. now rewrite Ha, Hi.
Qed.

(** ** The records of an enumeration *)

Lemma filter_none {A : Type} (f : A -> bool) (l : list A) :
  Forall (fun x => f x = false) l -> filter f l = [].
Proof.
  induction 1 as [|x l Hx _ IH]; simpl; [reflexivity|]. now rewrite Hx.
Qed.

(** C5. The indices of the records of an enumeration are 0, 1, ..., N-1 in
    the order of the records: the contiguous set from 0 to N-1, without
    duplicates, given in encounter order.  The count N is supposed to be a
    value of [int], as the counter of the loops is. *)
Theorem indices_contiguous h gpus :
  detect_gpus h = Returned gpus ->
  Z.of_nat (List.length gpus) <= Cxx.INT_MAX ->
  map index gpus = map Z.of_nat (seq 0 (List.length gpus))
  /\ NoDup (map index gpus)
  /\ (forall k, In k (map index gpus) <-> 0 <= k < Z.of_nat (List.length gpus)).
Proof.
  intros Hd Hlen.
  pose proof (detect_gpus_indices h gpus Hd Hlen) as Hidx.
  split; [exact Hidx|]. rewrite Hidx. split.
  - apply Injective_map_NoDup; [|apply seq_NoDup].
    intros a b. apply Nat2Z.inj.
  - intro k. rewrite in_map_iff. split.
    + intros (n & <- & Hn). apply in_seq in Hn. lia.
    + intros Hk. exists (Z.to_nat k). split; [lia|]. apply in_seq. lia.
Qed.

Lemma indices_contiguous_witness :
  map index [Sample.nvidia_gpu; Sample.amd_gpu] = [0; 1]
  /\ NoDup (map index [Sample.nvidia_gpu; Sample.amd_gpu])
  /\ (forall k, In k (map index [Sample.nvidia_gpu; Sample.amd_gpu])
                <-> 0 <= k < 2).
Proof.
  apply (indices_contiguous (OnLinux Sample.two_cards)
           [Sample.nvidia_gpu; Sample.amd_gpu]).
  - vm_compute. reflexivity.
  - vm_compute. discriminate.
Defined.

(** C4. In an enumeration with at least one record exactly one record is
    active: the first one, whose index is 0; a record is active exactly when
    its index is 0.  No platform path overrides the convention.  The count is
    supposed to be a value of [int]. *)
Theorem exactly_one_active h gpus :
  detect_gpus h = Returned gpus ->
  (1 <= List.length gpus)%nat ->
  Z.of_nat (List.length gpus) <= Cxx.INT_MAX ->
  List.length (filter is_active gpus) = 1%nat
  /\ (exists gpu0 rest,
        gpus = gpu0 :: rest /\ index gpu0 = 0 /\ is_active gpu0 = true
        /\ Forall (fun g => is_active g = false) rest)
  /\ Forall (fun g => is_active g = true <-> index g = 0) gpus.
Proof.
  intros Hd Hpos Hlen.
  pose proof (detect_gpus_indices h gpus Hd Hlen) as Hidx.
  pose proof (detect_gpus_active_flag h gpus Hd) as Hflag.
  destruct gpus as [|gpu0 rest]; [simpl in Hpos; lia|].
  cbn [map List.length seq] in Hidx. injection Hidx as H0 Hrest.
  inversion Hflag as [|? ? Hf0 Hfrest]; subst.
  assert (Hoff : Forall (fun g => is_active g = false) rest).
  { rewrite Forall_forall in *. intros g Hg.
    rewrite (Hfrest g Hg).
    assert (Hin : In (index g) (map index rest)) by now apply in_map.
    rewrite Hrest in Hin. apply in_map_iff in Hin.
    destruct Hin as (n & Hn & Hseq). apply in_seq in Hseq.
    apply Z.eqb_neq. lia. }
  rewrite H0 in Hf0. cbn in Hf0.
  split; [|split].
  - cbn [filter]. rewrite Hf0. cbn [List.length].
    now rewrite (filter_none _ _ Hoff).
  - exists gpu0, rest. now repeat split.
  - rewrite Forall_forall in *. intros g Hg. rewrite (Hflag g Hg).
    apply Z.eqb_eq.
Qed.

Lemma exactly_one_active_witness :
  List.length (filter is_active [Sample.nvidia_gpu; Sample.amd_gpu]) = 1%nat
  /\ (exists gpu0 rest,
        [Sample.nvidia_gpu; Sample.amd_gpu] = gpu0 :: rest
        /\ index gpu0 = 0 /\ is_active gpu0 = true
        /\ Forall (fun g => is_active g = false) rest)
  /\ Forall (fun g => is_active g = true <-> index g = 0)
            [Sample.nvidia_gpu; Sample.amd_gpu].
Proof.
  apply (exactly_one_active (OnLinux Sample.two_cards)).
  - vm_compute. reflexivity.
  - simpl. lia.
  - vm_compute. discriminate.
Defined.

(** What the claim C1 says fails on the Windows path, which copies the
    manufacturer property and has no default: an adapter whose manufacturer
    cannot be read gets the empty vendor. *)
Lemma vendor_empty_without_manufacturer :
  detect_gpus (OnWindows Sample.adapter_without_mfg)
  = Returned [mkGPUInfo "Intel(R) UHD Graphics 630" ""
                "{4d36e968-e325-11ce-bfc1-08002be10318}\0001" "8086:3E92"
                0 true]
  /\ ~ In "" Spec.vendor_names.
Proof.
  split.
  - vm_compute. reflexivity.
  - simpl. intros [H|[H|[H|[H|[]]]]]; discriminate.
Qed.

(** C1, amended.  On the Linux path the record of a card whose uevent file
    exists (read or not) has its vendor from the lookup: one of NVIDIA, AMD,
    Intel, Unknown, and not the empty string.  The macOS placeholder has
    vendor Unknown.  On the Windows path the vendor is the manufacturer
    property as it is, and the empty string when the property cannot be
    read. *)
Theorem vendor_by_platform h gpus :
  detect_gpus h = Returned gpus ->
  match h with
  | OnLinux (Linux.mkSysfs (Linux.DrmListing entries) _) =>
      Forall2 (fun e g =>
                 Linux.exists_ (Linux.uevent e) = true ->
                 In (vendor g) Spec.vendor_names /\ vendor g <> "")
              (cards entries) gpus
  | OnLinux _ => gpus = []
  | OnWindows (Windows.DevInfoSet devices) =>
      Forall2 (fun d g => vendor g = Windows.or_empty (Windows.mfg d))
              devices gpus
  | OnWindows Windows.InvalidHandle => gpus = []
  | OnMacOS => Forall (fun g => vendor g = "Unknown") gpus
  | OnOther => gpus = []
  end.
Proof.
  destruct h as [[d nv] | w | | ]; simpl.
  - destruct d as [|what|entries].
    + now intros [= <-].
    + discriminate.
    + rewrite detect_gpus_linux_listing. intros [= <-].
      apply number_Forall2. intros i e He.
      unfold Linux.card_gpu, Linux.read_uevent. rewrite He. cbn [vendor].
      pose proof (get_vendor_name_in_names
                    (Linux.u_vendor_id (Linux.scan_uevent (Linux.lines (Linux.uevent e)))))
        as Hin.
      split; [exact Hin|].
      intro Hempty. rewrite Hempty in Hin. simpl in Hin.
      destruct Hin as [H|[H|[H|[H|[]]]]]; discriminate.
  - intros [= <-]. destruct w as [|devices]; [reflexivity|].
    rewrite detect_gpus_windows_set. now apply number_Forall2.
  - intros [= <-]. repeat constructor.
  - now intros [= <-].
Qed.

Lemma vendor_by_platform_witness :
  Forall2 (fun e g =>
             Linux.exists_ (Linux.uevent e) = true ->
             In (vendor g) Spec.vendor_names /\ vendor g <> "")
          [Sample.card "card0" "nvidia" "10DE:1B80";
           Sample.card "card1" "amdgpu" "1002:6798"]
          [Sample.nvidia_gpu; Sample.amd_gpu].
Proof.
  apply (vendor_by_platform (OnLinux Sample.two_cards)
           [Sample.nvidia_gpu; Sample.amd_gpu]).
  vm_compute. reflexivity.
Defined.

(** The Linux loop names a card without name by its vendor and PCI id. *)
Lemma linux_fallback_name nv entries gpus :
  detect_gpus (OnLinux (Linux.mkSysfs (Linux.DrmListing entries) nv))
  = Returned gpus ->
  Forall2 (fun e g =>
             unnamed e ->
             name g = if Cxx.empty (pci_id g) then vendor g ++ " GPU"
                      else vendor g ++ " GPU [" ++ pci_id g ++ "]")
          (cards entries) gpus.
Proof.
  intros Hd.
  cbn [detect_gpus] in Hd. rewrite detect_gpus_linux_listing in Hd.
  injection Hd as <-.
  apply number_Forall2. intros i e (Hl & Hp & Hm).
  unfold Linux.card_gpu. destruct (Linux.read_uevent (Linux.uevent e)) as [pci ven].
  unfold Linux.name_paths. cbn [Linux.first_name]. rewrite Hl, Hp, Hm.
  cbn [name vendor pci_id]. unfold Linux.fallback_name.
  destruct (Cxx.empty pci); reflexivity.
Qed.

(** What the claim C7 says fails on the Windows path, which has no name
    fallback: an adapter of vendor AMD and PCI id 1002:6798 whose description
    cannot be read keeps the empty name, not "AMD GPU [1002:6798]". *)
Lemma name_empty_without_description :
  detect_gpus (OnWindows Sample.adapter_without_description)
  = Returned [mkGPUInfo "" "AMD" "" "1002:6798" 0 true]
  /\ Linux.fallback_name "AMD" "1002:6798" = "AMD GPU [1002:6798]"
  /\ "" <> "AMD GPU [1002:6798]".
Proof.
  split; [vm_compute; reflexivity|]. split; [reflexivity | discriminate].
Qed.

(** C7, amended.  On the Linux path, the record of a card for which none of
    the three name files gave a name is named "<vendor> GPU [<pci_id>]" when
    its PCI id is not empty and "<vendor> GPU" when it is; with vendor AMD and
    PCI id 1002:6798 the name is "AMD GPU [1002:6798]".  The Windows path
    synthesizes no name: the name is the device description as it is, and the
    empty string when that property cannot be read.  The macOS placeholder has
    its fixed name. *)
Theorem fallback_name_by_platform h gpus :
  detect_gpus h = Returned gpus ->
  match h with
  | OnLinux (Linux.mkSysfs (Linux.DrmListing entries) _) =>
      Forall2 (fun e g =>
                 unnamed e ->
                 name g = if Cxx.empty (pci_id g) then vendor g ++ " GPU"
                          else vendor g ++ " GPU [" ++ pci_id g ++ "]")
              (cards entries) gpus
  | OnLinux _ => gpus = []
  | OnWindows (Windows.DevInfoSet devices) =>
      Forall2 (fun d g => name g = Windows.or_empty (Windows.devicedesc d))
              devices gpus
  | OnWindows Windows.InvalidHandle => gpus = []
  | OnMacOS =>
      Forall (fun g => name g = "macOS GPU (detection not implemented)") gpus
  | OnOther => gpus = []
  end
  /\ Linux.fallback_name "AMD" "1002:6798" = "AMD GPU [1002:6798]"
  /\ Linux.fallback_name "AMD" "" = "AMD GPU".
Proof.
  intros Hd. split; [|split; reflexivity].
  destruct h as [[d nv] | w | | ].
  - destruct d as [|what|entries].
    + simpl in Hd. now injection Hd as <-.
    + discriminate Hd.
    + now apply (linux_fallback_name nv).
  - simpl in Hd. injection Hd as <-. destruct w as [|devices]; [reflexivity|].
    rewrite detect_gpus_windows_set. now apply number_Forall2.
  - simpl in Hd. injection Hd as <-. repeat constructor.
  - simpl in Hd. now injection Hd as <-.
Qed.

Lemma fallback_name_by_platform_witness :
  Forall2 (fun e g =>
             unnamed e ->
             name g = if Cxx.empty (pci_id g) then vendor g ++ " GPU"
                      else vendor g ++ " GPU [" ++ pci_id g ++ "]")
          (cards [Sample.card "card1" "amdgpu" "1002:6798"; Sample.other "card7"])
          [mkGPUInfo "AMD GPU [1002:6798]" "AMD" "" "1002:6798" 0 true;
           mkGPUInfo " GPU" "" "" "" 1 false]
  /\ Linux.fallback_name "AMD" "1002:6798" = "AMD GPU [1002:6798]"
  /\ Linux.fallback_name "AMD" "" = "AMD GPU".
Proof.
  apply (fallback_name_by_platform
           (OnLinux (Linux.mkSysfs
                       (Linux.DrmListing
                          [Sample.card "card1" "amdgpu" "1002:6798";
                           Sample.other "card7"])
                       Linux.Absent))).
  vm_compute. reflexivity.
Defined.

(** ** Parsing the argument *)

Lemma digit_is_plain c :
  Cxx.isdigit c = true ->
  Cxx.isspace c = false
  /\ Ascii.eqb c Cxx.minus_sign = false /\ Ascii.eqb c Cxx.plus_sign = false.
Proof.
  destruct c as [[] [] [] [] [] [] [] []]; cbv; intro H;
    try discriminate H; repeat split.
Qed.

Lemma all_digits_prefix s :
  Spec.all_digits s = true -> Cxx.digits_prefix s = s.
Proof.
  induction s as [|c r IH]; simpl; [reflexivity|].
  intros H. apply andb_true_iff in H. destruct H as [Hc Hr].
  now rewrite Hc, IH.
Qed.

(** The accumulator of the scan and the value by position. *)
Lemma digits_value_positional s : forall acc,
  Cxx.digits_value acc s
  = acc * 10 ^ Z.of_nat (String.length s) + Spec.numeral_value s.
Proof.
  induction s as [|c r IH]; intro acc.
  - simpl. lia.
  - cbn [Cxx.digits_value Spec.numeral_value String.length].
    rewrite IH, Nat2Z.inj_succ, Z.pow_succ_r by lia. ring.
Qed.

(** [stoi] on a decimal numeral: its value, when [int] holds it. *)
Lemma stoi_numeral s :
  Spec.decimal_numeral s = true ->
  Cxx.stoi s
  = if Spec.numeral_value s <=? Cxx.INT_MAX
    then (if Cxx.INT_MIN <=? Spec.numeral_value s
          then Cxx.Parsed (Spec.numeral_value s) else Cxx.OutOfRange)
    else Cxx.OutOfRange.
Proof.
  unfold Spec.decimal_numeral. destruct s as [|c r]; [discriminate|].
  cbn [Cxx.empty negb andb]. intros Hall.
  pose proof (all_digits_prefix _ Hall) as Hpre.
  cbn [Spec.all_digits] in Hall. apply andb_true_iff in Hall.
  destruct Hall as [Hc _].
  destruct (digit_is_plain c Hc) as (Hsp & Hminus & Hplus).
  unfold Cxx.stoi. cbn [Cxx.skip_space]. rewrite Hsp.
  cbn [Cxx.strip_sign]. rewrite Hminus, Hplus, Hpre.
  rewrite digits_value_positional. rewrite Z.mul_0_l, Z.add_0_l.
  destruct (Cxx.INT_MIN <=? _), (_ <=? Cxx.INT_MAX); reflexivity.
Qed.

Lemma stoi_keyword arg :
  Spec.recognized arg = true -> Cxx.stoi arg = Cxx.InvalidArgument.
Proof.
  unfold Spec.recognized, Spec.keywords. cbn [existsb].
  rewrite !orb_true_iff.
  intros [H|[H|[H|[H|H]]]]; try discriminate H;
    apply String.eqb_eq in H; subst; reflexivity.
Qed.

(** With at least one record and one argument that is no keyword, the run is
    the index branch. *)
Lemma plugin_run_on_index gpus prog arg :
  gpus <> [] ->
  Spec.recognized arg = false ->
  plugin_run_on (Returned gpus) 2 [prog; arg] = select_index gpus arg.
Proof.
  intros Hne Hkw. destruct gpus as [|gpu0 rest]; [contradiction|].
  unfold Spec.recognized, Spec.keywords in Hkw. cbn [existsb] in Hkw.
  rewrite orb_false_r in Hkw.
  apply orb_false_iff in Hkw. destruct Hkw as [H1 Hkw].
  apply orb_false_iff in Hkw. destruct Hkw as [H2 Hkw].
  apply orb_false_iff in Hkw. destruct Hkw as [H3 H4].
  cbn [plugin_run_on Z.eqb Pos.eqb nth_error]. now rewrite H1, H2, H3, H4.
Qed.

Lemma not_recognized_of_stoi arg :
  Cxx.stoi arg <> Cxx.InvalidArgument -> Spec.recognized arg = false.
Proof.
  intros H. destruct (Spec.recognized arg) eqn:E; [|reflexivity].
  now apply stoi_keyword in E.
Qed.

Lemma first_active_In gpus gpu : first_active gpus = Some gpu -> In gpu gpus.
Proof.
  induction gpus as [|g rest IH]; simpl; [discriminate|].
  destruct (is_active g); [intros [= ->]; now left | intro H; right; auto].
Qed.

(** The diagnostics are not empty, and are told apart by their text. *)
Lemma diagnostics_not_empty :
  no_gpu_warning <> ""
  /\ (forall idx size, out_of_range_error idx size <> "")
  /\ (forall arg, invalid_argument_error arg <> "")
  /\ too_many_arguments_error <> ""
  /\ (forall e, exception_error e <> "").
Proof.
  repeat split; try discriminate; intros; try destruct e; discriminate.
Qed.

Lemma invalid_is_not_out_of_range arg idx size :
  invalid_argument_error arg <> out_of_range_error idx size.
Proof. cbn. intros [=]. Qed.

(** ** The entry point *)

(** C3. When the enumeration yields no record, the run writes the warning
    with its three plausible causes to [std::cerr], writes nothing to
    [std::cout] and returns 1, whatever the argument count and the arguments
    are: help, --help, -h and too many arguments included. *)
Theorem no_gpus_before_arguments h argc argv :
  detect_gpus h = Returned [] ->
  plugin_run h argc argv = Some (mkRun 1 "" no_gpu_warning)
  /\ Spec.mentions no_gpu_warning "Warning: No GPUs detected." = true
  /\ Spec.mentions no_gpu_warning "No GPU is present in the system" = true
  /\ Spec.mentions no_gpu_warning "GPU drivers are not installed" = true
  /\ Spec.mentions no_gpu_warning "Insufficient permissions" = true.
Proof.
  intros Hd. unfold plugin_run. rewrite Hd.
  repeat split; reflexivity.
Qed.

Lemma no_gpus_before_arguments_witness :
  plugin_run (OnLinux Sample.no_drm) 2 ["gpu"; "--help"]
  = Some (mkRun 1 "" no_gpu_warning)
  /\ Spec.mentions no_gpu_warning "Warning: No GPUs detected." = true
  /\ Spec.mentions no_gpu_warning "No GPU is present in the system" = true
  /\ Spec.mentions no_gpu_warning "GPU drivers are not installed" = true
  /\ Spec.mentions no_gpu_warning "Insufficient permissions" = true.
Proof.
  apply (no_gpus_before_arguments (OnLinux Sample.no_drm) 2 ["gpu"; "--help"]).
  reflexivity.
Defined.

(** The index branch on an argument that [stoi] reads as [i], [0 <= i]:
    the record at position [i] when [i < count], the out-of-range diagnostic
    with the range 0 to count-1 when [count <= i]. *)
Lemma parsed_index_argument h gpus prog arg i :
  detect_gpus h = Returned gpus ->
  (1 <= List.length gpus)%nat ->
  Z.of_nat (List.length gpus) <= Cxx.INT_MAX ->
  Cxx.stoi arg = Cxx.Parsed i ->
  0 <= i ->
  (i < Z.of_nat (List.length gpus) ->
   exists gpu,
     nth_error gpus (Z.to_nat i) = Some gpu /\ index gpu = i
     /\ plugin_run h 2 [prog; arg] = Some (mkRun 0 (display_gpu gpu false) ""))
  /\ (Z.of_nat (List.length gpus) <= i ->
      plugin_run h 2 [prog; arg]
      = Some (mkRun 1 ""
                (Color.YELLOW ++ "Error: GPU index " ++ Cxx.to_string i
                 ++ " out of range." ++ Color.RESET ++ Cxx.nl
                 ++ "Available GPUs: 0-"
                 ++ Cxx.to_string (Z.of_nat (List.length gpus) - 1)
                 ++ Cxx.nl))).
Proof.
  intros Hd Hpos Hlen Hstoi Hi.
  assert (Hne : gpus <> []) by (destruct gpus; [simpl in Hpos; lia | discriminate]).
  assert (Hkw : Spec.recognized arg = false)
    by (apply not_recognized_of_stoi; rewrite Hstoi; discriminate).
  unfold plugin_run. rewrite Hd, (plugin_run_on_index gpus prog arg Hne Hkw).
  unfold select_index. rewrite Hstoi.
  rewrite to_int_small by (unfold Cxx.INT_MIN; lia).
  split; intros Hrange.
  - destruct (nth_error gpus (Z.to_nat i)) as [gpu|] eqn:Hnth.
    + exists gpu. split; [reflexivity|]. split.
      * pose proof (map_nth_error index _ _ Hnth) as Hm.
        rewrite (detect_gpus_indices h gpus Hd Hlen) in Hm.
        rewrite nth_error_map, nth_error_nth' with (d := O) in Hm
          by (rewrite length_seq; lia).
        rewrite seq_nth in Hm by lia. simpl in Hm.
        injection Hm as Hm. lia.
      * replace ((i <? 0) || (i >=? Z.of_nat (List.length gpus))) with false;
          [reflexivity|].
        symmetry. apply orb_false_iff. split; [lia|].
        rewrite Z.geb_leb. apply Z.leb_gt. lia.
    + apply nth_error_None in Hnth. lia.
  - replace ((i <? 0) || (i >=? Z.of_nat (List.length gpus))) with true.
    + unfold out_of_range_error. rewrite to_size_t_small; [reflexivity|].
      unfold Cxx.INT_MAX in Hlen. lia.
    + symmetry. apply orb_true_iff. right.
      rewrite Z.geb_leb. apply Z.leb_le. lia.
Qed.

Lemma numeral_value_nonneg s :
  Spec.all_digits s = true -> 0 <= Spec.numeral_value s.
Proof.
  induction s as [|c r IH]; [intros _; simpl; lia|].
  cbn [Spec.all_digits Spec.numeral_value]. intros H.
  apply andb_true_iff in H. destruct H as [Hc Hr].
  unfold Cxx.isdigit in Hc. apply andb_true_iff in Hc. destruct Hc as [Hlo _].
  apply Nat.leb_le in Hlo.
  assert (0 <= Cxx.digit_value c) by (unfold Cxx.digit_value; lia).
  assert (0 <= 10 ^ Z.of_nat (String.length r)) by (apply Z.pow_nonneg; lia).
  specialize (IH Hr). nia.
Qed.

(** What the claim C8 says fails on a numeral above [INT_MAX]: 2147483648 is
    a non-negative integer not below the count of two records, and the run
    reports it with the invalid-argument diagnostic, not with the
    out-of-range one. *)
Lemma numeral_above_int_not_out_of_range :
  Spec.decimal_numeral "2147483648" = true
  /\ Spec.numeral_value "2147483648" = 2147483648
  /\ detect_gpus (OnLinux Sample.two_cards)
     = Returned [Sample.nvidia_gpu; Sample.amd_gpu]
  /\ plugin_run (OnLinux Sample.two_cards) 2 ["gpu"; "2147483648"]
     = Some (mkRun 1 "" (invalid_argument_error "2147483648"))
  /\ invalid_argument_error "2147483648" <> out_of_range_error 2147483648 2.
Proof.
  repeat split; try (vm_compute; reflexivity).
  apply invalid_is_not_out_of_range.
Qed.

(** C8, amended.  With at least one record and one argument that is a
    decimal numeral of a value [i] that [int] holds ([i <= INT_MAX]): when
    [i < count] the run displays the record at position [i], whose index is
    [i], and returns 0; when [count <= i] it writes the out-of-range
    diagnostic to [std::cerr], with the range 0 to count-1, and returns 1.
    The count is supposed to be a value of [int]. *)
Theorem numeral_index_argument h gpus prog arg i :
  detect_gpus h = Returned gpus ->
  (1 <= List.length gpus)%nat ->
  Z.of_nat (List.length gpus) <= Cxx.INT_MAX ->
  Spec.decimal_numeral arg = true ->
  Spec.numeral_value arg = i ->
  i <= Cxx.INT_MAX ->
  0 <= i
  /\ Cxx.stoi arg = Cxx.Parsed i
  /\ (i < Z.of_nat (List.length gpus) ->
      exists gpu,
        nth_error gpus (Z.to_nat i) = Some gpu /\ index gpu = i
        /\ plugin_run h 2 [prog; arg]
           = Some (mkRun 0 (display_gpu gpu false) ""))
  /\ (Z.of_nat (List.length gpus) <= i ->
      plugin_run h 2 [prog; arg]
      = Some (mkRun 1 ""
                (Color.YELLOW ++ "Error: GPU index " ++ Cxx.to_string i
                 ++ " out of range." ++ Color.RESET ++ Cxx.nl
                 ++ "Available GPUs: 0-"
                 ++ Cxx.to_string (Z.of_nat (List.length gpus) - 1)
                 ++ Cxx.nl))).
Proof.
  intros Hd Hpos Hlen Hnum Hval Hmax.
  assert (Hi : 0 <= i).
  { subst i. apply numeral_value_nonneg.
    unfold Spec.decimal_numeral in Hnum. apply andb_true_iff in Hnum. tauto. }
  assert (Hstoi : Cxx.stoi arg = Cxx.Parsed i).
  { rewrite (stoi_numeral arg Hnum), Hval.
    destruct (Z.leb_spec i Cxx.INT_MAX); [|lia].
    destruct (Z.leb_spec Cxx.INT_MIN i); [reflexivity|].
    unfold Cxx.INT_MIN in *. lia. }
  split; [exact Hi|]. split; [exact Hstoi|].
  exact (parsed_index_argument h gpus prog arg i Hd Hpos Hlen Hstoi Hi).
Qed.

Lemma numeral_index_argument_witness :
  0 <= 1
  /\ Cxx.stoi "1" = Cxx.Parsed 1
  /\ (1 < 2 ->
      exists gpu,
        nth_error [Sample.nvidia_gpu; Sample.amd_gpu] (Z.to_nat 1) = Some gpu
        /\ index gpu = 1
        /\ plugin_run (OnLinux Sample.two_cards) 2 ["gpu"; "1"]
           = Some (mkRun 0 (display_gpu gpu false) ""))
  /\ (2 <= 1 ->
      plugin_run (OnLinux Sample.two_cards) 2 ["gpu"; "1"]
      = Some (mkRun 1 ""
                (Color.YELLOW ++ "Error: GPU index " ++ Cxx.to_string 1
                 ++ " out of range." ++ Color.RESET ++ Cxx.nl
                 ++ "Available GPUs: 0-" ++ Cxx.to_string (2 - 1) ++ Cxx.nl))).
Proof.
  apply (numeral_index_argument (OnLinux Sample.two_cards)
           [Sample.nvidia_gpu; Sample.amd_gpu] "gpu" "1" 1).
  - vm_compute. reflexivity.
  - simpl. lia.
  - vm_compute. discriminate.
  - reflexivity.
  - reflexivity.
  - vm_compute. discriminate.
Defined.

(** The sample of the specification: "5" with two records. *)
Example index_5_of_2 :
  plugin_run (OnLinux Sample.two_cards) 2 ["gpu"; "5"]
  = Some (mkRun 1 ""
            (Color.YELLOW ++ "Error: GPU index 5 out of range." ++ Color.RESET
             ++ Cxx.nl ++ "Available GPUs: 0-1" ++ Cxx.nl)).
Proof. vm_compute. reflexivity. Qed.

(** The index branch ends on one of three paths. *)
Lemma select_index_paths gpus arg :
  exists r,
    select_index gpus arg = Some r
    /\ ((exists gpu, In gpu gpus /\ r = mkRun 0 (display_gpu gpu false) "")
        \/ (exists idx, r = mkRun 1 "" (out_of_range_error idx (List.length gpus)))
        \/ r = mkRun 1 "" (invalid_argument_error arg)).
Proof.
  unfold select_index.
  destruct (Cxx.stoi arg) as [idx| |]; try (eexists; split; [reflexivity|]; auto).
  destruct ((idx <? 0) || (idx >=? Cxx.to_int (Z.of_nat (List.length gpus))))
    eqn:Hrange.
  - eexists; split; [reflexivity|]. right. left. now exists idx.
  - apply orb_false_iff in Hrange. destruct Hrange as [Hlo Hhi].
    apply Z.ltb_ge in Hlo. rewrite Z.geb_leb in Hhi. apply Z.leb_gt in Hhi.
    pose proof (to_int_le (Z.of_nat (List.length gpus)) (Nat2Z.is_nonneg _)).
    destruct (nth_error gpus (Z.to_nat idx)) as [gpu|] eqn:Hnth.
    + eexists; split; [reflexivity|]. left. exists gpu.
      split; [now apply nth_error_In in Hnth | reflexivity].
    + apply nth_error_None in Hnth. lia.
Qed.

(** C9. For every outcome of the enumeration (records, no record, an
    exception of either kind), every argument count and every argument list
    (which holds [argv[1]] when the count is 2), the run returns 0 or 1.  It returns 0 exactly on the
    success paths (a record, the usage text or all records shown, nothing on
    [std::cerr]) and 1 exactly on the handled errors (one of the five
    diagnostics on [std::cerr], nothing on [std::cout]). *)
Theorem exit_status detected argc argv :
  (argc = 2 -> (2 <= List.length argv)%nat) ->
  exists r,
    plugin_run_on detected argc argv = Some r
    /\ (exit_code r = 0 \/ exit_code r = 1)
    /\ (exit_code r = 0 <-> success_path detected r)
    /\ (exit_code r = 1 <-> handled_error r).
Proof.
  intros Hargc.
  destruct diagnostics_not_empty as (Hw & Ho & Hi & Ht & He).
  assert (Hfail : forall r,
            out r = "" -> exit_code r = 1 ->
            (err r = no_gpu_warning
             \/ (exists idx size, err r = out_of_range_error idx size)
             \/ (exists arg, err r = invalid_argument_error arg)
             \/ err r = too_many_arguments_error
             \/ exists e, err r = exception_error e) ->
            (exit_code r = 0 \/ exit_code r = 1)
            /\ (exit_code r = 0 <-> success_path detected r)
            /\ (exit_code r = 1 <-> handled_error r)).
  { intros r Hout Hexit Herr.
    assert (Hnz : err r <> "").
    { destruct Herr as [E|[(idx & size & E)|[(a & E)|[E|(e & E)]]]];
        rewrite E; auto. }
    split; [now right|]. split.
    - split; [lia|]. intros [Hempty _]. contradiction.
    - split; [|auto]. intros _. now repeat split. }
  assert (Hok : forall gpus r,
            detected = Returned gpus ->
            err r = "" -> exit_code r = 0 ->
            (out r = display_help \/ out r = display_all_gpus gpus
             \/ exists gpu, In gpu gpus /\ out r = display_gpu gpu false) ->
            (exit_code r = 0 \/ exit_code r = 1)
            /\ (exit_code r = 0 <-> success_path detected r)
            /\ (exit_code r = 1 <-> handled_error r)).
  { intros gpus r Hdet Herr Hexit Hout.
    split; [now left|]. split.
    - split; [|auto]. intros _. split; [exact Herr|]. now exists gpus.
    - split; [lia|]. intros (_ & Hnz & _). contradiction. }
  destruct detected as [gpus|e].
  2:{ eexists; split; [reflexivity|]. apply Hfail; simpl; eauto 10. }
  destruct gpus as [|gpu0 rest].
  { eexists; split; [reflexivity|]. apply Hfail; simpl; auto. }
  cbn [plugin_run_on].
  destruct (argc =? 1) eqn:H1.
  { destruct (first_active (gpu0 :: rest)) as [gpu|] eqn:Hact.
    - eexists; split; [reflexivity|].
      apply (Hok (gpu0 :: rest)); simpl; auto.
      right. right. exists gpu. split; [|reflexivity].
      apply first_active_In in Hact. exact Hact.
    - eexists; split; [reflexivity|].
      apply (Hok (gpu0 :: rest)); simpl; auto.
      right. right. exists gpu0. auto. }
  destruct (argc =? 2) eqn:H2.
  2:{ eexists; split; [reflexivity|]. apply Hfail; simpl; auto. }
  apply Z.eqb_eq in H2. specialize (Hargc H2).
  destruct argv as [|prog [|arg more]]; try (simpl in Hargc; lia).
  cbn [nth_error].
  destruct ((arg =? "help")%string || (arg =? "--help")%string
            || (arg =? "-h")%string).
  { eexists; split; [reflexivity|]. apply (Hok (gpu0 :: rest)); simpl; auto. }
  destruct (arg =? "all")%string.
  { eexists; split; [reflexivity|]. apply (Hok (gpu0 :: rest)); simpl; auto. }
  destruct (select_index_paths (gpu0 :: rest) arg) as (r & Hr & Hpath).
  exists r. split; [exact Hr|].
  destruct Hpath as [(gpu & Hin & ->)|[(idx & ->)| ->]].
  - apply (Hok (gpu0 :: rest)); simpl; auto.
    right. right. exists gpu. auto.
  - apply Hfail; simpl; eauto 10.
  - apply Hfail; simpl; eauto 10.
Qed.

Lemma exit_status_witness :
  exists r,
    plugin_run_on (Threw OtherException) 2 ["gpu"; "all"] = Some r
    /\ (exit_code r = 0 \/ exit_code r = 1)
    /\ (exit_code r = 0 <-> success_path (Threw OtherException) r)
    /\ (exit_code r = 1 <-> handled_error r).
Proof.
  apply (exit_status (Threw OtherException) 2 ["gpu"; "all"]).
  intros _. simpl. lia.
Defined.

(** C10. With at least one record, one argument that is a decimal numeral
    of a value above [INT_MAX] makes [stoi] fail for the range, and the run
    reports it with the invalid-argument diagnostic and returns 1; that
    diagnostic is not the one of an index out of range. *)
Theorem int_overflow_is_invalid_argument h gpus prog arg :
  detect_gpus h = Returned gpus ->
  (1 <= List.length gpus)%nat ->
  Spec.decimal_numeral arg = true ->
  Cxx.INT_MAX < Spec.numeral_value arg ->
  Cxx.stoi arg = Cxx.OutOfRange
  /\ plugin_run h 2 [prog; arg]
     = Some (mkRun 1 "" (invalid_argument_error arg))
  /\ Spec.mentions (invalid_argument_error arg) "Error: Invalid argument" = true
  /\ forall idx size, invalid_argument_error arg <> out_of_range_error idx size.
Proof.
  intros Hd Hpos Hnum Hbig.
  assert (Hne : gpus <> []) by (destruct gpus; [simpl in Hpos; lia | discriminate]).
  assert (Hstoi : Cxx.stoi arg = Cxx.OutOfRange).
  { rewrite (stoi_numeral arg Hnum).
    destruct (Spec.numeral_value arg <=? Cxx.INT_MAX) eqn:E; [|reflexivity].
    apply Z.leb_le in E. lia. }
  assert (Hkw : Spec.recognized arg = false)
    by (apply not_recognized_of_stoi; rewrite Hstoi; discriminate).
  split; [exact Hstoi|]. split; [|split].
  - unfold plugin_run.
    rewrite Hd, (plugin_run_on_index gpus prog arg Hne Hkw).
    unfold select_index. now rewrite Hstoi.
  - reflexivity.
  - intros idx size. apply invalid_is_not_out_of_range.
Qed.

Lemma int_overflow_is_invalid_argument_witness :
  Cxx.stoi "2147483648" = Cxx.OutOfRange
  /\ plugin_run (OnLinux Sample.two_cards) 2 ["gpu"; "2147483648"]
     = Some (mkRun 1 "" (invalid_argument_error "2147483648"))
  /\ Spec.mentions (invalid_argument_error "2147483648")
       "Error: Invalid argument" = true
  /\ forall idx size,
       invalid_argument_error "2147483648" <> out_of_range_error idx size.
Proof.
  apply (int_overflow_is_invalid_argument (OnLinux Sample.two_cards)
           [Sample.nvidia_gpu; Sample.amd_gpu] "gpu" "2147483648").
  - vm_compute. reflexivity.
  - simpl. lia.
  - reflexivity.
  - vm_compute. reflexivity.
Defined.

(** What the claim C2 says fails on an argument with a numeric prefix:
    "0abc" is no keyword and no numeral, [stoi] reads it as 0, and the run
    displays record 0 and returns 0. *)
Lemma numeric_prefix_accepted :
  Spec.recognized "0abc" = false
  /\ Spec.decimal_numeral "0abc" = false
  /\ detect_gpus (OnLinux Sample.two_cards)
     = Returned [Sample.nvidia_gpu; Sample.amd_gpu]
  /\ plugin_run (OnLinux Sample.two_cards) 2 ["gpu"; "0abc"]
     = Some (mkRun 0 (display_gpu Sample.nvidia_gpu false) "").
Proof. repeat split; vm_compute; reflexivity. Qed.

(** The two samples of the claim: "-1" is read as -1 and "5abc" as 5, and
    both are reported as indices out of range. *)
Example negative_and_trailing :
  plugin_run (OnLinux Sample.two_cards) 2 ["gpu"; "-1"]
  = Some (mkRun 1 "" (out_of_range_error (-1) 2))
  /\ plugin_run (OnLinux Sample.two_cards) 2 ["gpu"; "5abc"]
     = Some (mkRun 1 "" (out_of_range_error 5 2)).
Proof. split; vm_compute; reflexivity. Qed.

(** C2, amended.  With at least one record, one argument that is no keyword
    and that [stoi] rejects (no digit after the leading white space and the
    optional sign, or a value outside [int]) makes the run write the
    invalid-argument diagnostic to [std::cerr] and return 1; "xyz" is such an
    argument. *)
Theorem invalid_argument_rejected h gpus prog arg :
  detect_gpus h = Returned gpus ->
  (1 <= List.length gpus)%nat ->
  Spec.recognized arg = false ->
  Cxx.stoi arg = Cxx.InvalidArgument \/ Cxx.stoi arg = Cxx.OutOfRange ->
  plugin_run h 2 [prog; arg] = Some (mkRun 1 "" (invalid_argument_error arg))
  /\ Spec.mentions (invalid_argument_error arg) "Error: Invalid argument" = true
  /\ Cxx.stoi "xyz" = Cxx.InvalidArgument
  /\ Spec.recognized "xyz" = false.
Proof.
  intros Hd Hpos Hkw Hstoi.
  assert (Hne : gpus <> []) by (destruct gpus; [simpl in Hpos; lia | discriminate]).
  split; [|repeat split; reflexivity].
  unfold plugin_run. rewrite Hd, (plugin_run_on_index gpus prog arg Hne Hkw).
  unfold select_index. destruct Hstoi as [-> | ->]; reflexivity.
Qed.

Lemma invalid_argument_rejected_witness :
  plugin_run (OnLinux Sample.two_cards) 2 ["gpu"; "xyz"]
  = Some (mkRun 1 "" (invalid_argument_error "xyz"))
  /\ Spec.mentions (invalid_argument_error "xyz") "Error: Invalid argument" = true
  /\ Cxx.stoi "xyz" = Cxx.InvalidArgument
  /\ Spec.recognized "xyz" = false.
Proof.
  apply (invalid_argument_rejected (OnLinux Sample.two_cards)
           [Sample.nvidia_gpu; Sample.amd_gpu] "gpu" "xyz").
  - vm_compute. reflexivity.
  - simpl. lia.
  - reflexivity.
  - left. reflexivity.
Defined.

(** * Further properties of the code *)

(** ** Strings *)

Lemma append_nil_r s : s ++ "" = s.
Proof. induction s as [|c r IH]; simpl; [|rewrite IH]; reflexivity. Qed.

Lemma append_assoc a b c : (a ++ b) ++ c = a ++ (b ++ c).
Proof. induction a as [|x r IH]; simpl; [|rewrite IH]; reflexivity. Qed.

Lemma length_append a b :
  String.length (a ++ b) = (String.length a + String.length b)%nat.
Proof. induction a as [|x r IH]; simpl; [|rewrite IH]; reflexivity. Qed.

(** [find] answers 0 exactly for a prefix. *)
Lemma find_zero_prefix a p s :
  Cxx.find (String a p) s = Some O <-> prefix (String a p) s = true.
Proof.
  unfold Cxx.find. destruct s as [|b r].
  - simpl. split; discriminate.
  - cbn [String.index]. destruct (prefix (String a p) (String b r)).
    + tauto.
    + destruct (String.index 0 (String a p) r); split; discriminate.
Qed.

Lemma prefix_split p : forall s,
  prefix p s = true <-> exists r, s = p ++ r.
Proof.
  induction p as [|a p IH]; intro s.
  - split; [intros _; now exists s | intros _; destruct s; reflexivity].
  - destruct s as [|b r]; simpl.
    + split; [discriminate | intros (x & Hx); discriminate Hx].
    + destruct (ascii_dec a b) as [->|Hab].
      * rewrite IH. split; intros (x & Hx); exists x.
        -- now rewrite Hx.
        -- simpl in Hx. now injection Hx.
      * split; [discriminate | intros (x & Hx); simpl in Hx; congruence].
Qed.

(** [find] of one character answers [npos] exactly when it does not occur. *)
Lemma find_single_none c s :
  Cxx.find (String c "") s = None <-> Text.without_char c s = true.
Proof.
  unfold Cxx.find, Text.without_char.
  induction s as [|b r IH].
  - simpl. now split.
  - cbn [String.index prefix Text.every_char].
    destruct (ascii_dec c b) as [->|Hcb].
    + rewrite Ascii.eqb_refl.
      replace (prefix "" r) with true by (destruct r; reflexivity).
      split; discriminate.
    + apply Ascii.eqb_neq in Hcb. rewrite Hcb. cbn [negb andb].
      rewrite <- IH. destruct (String.index 0 (String c "") r); split; congruence.
Qed.

Lemma every_char_append p a b :
  Text.every_char p (a ++ b) = Text.every_char p a && Text.every_char p b.
Proof.
  induction a as [|x r IH]; simpl; [reflexivity|].
  now rewrite IH, andb_assoc.
Qed.

(** X1. The directory filter of the Linux loop takes exactly the names that
    start with "card" and hold no '-' after it: card0 is taken; card0-HDMI-A-1,
    renderD128 and version are not. *)
Theorem is_card_starts_with_card card_name :
  Linux.is_card card_name = true
  <-> exists rest,
        card_name = "card" ++ rest /\ Text.without_char "-" rest = true.
Proof.
  unfold Linux.is_card. split.
  - destruct (Cxx.find "card" card_name) as [[|n]|] eqn:Hc; try discriminate.
    destruct (Cxx.find "-" card_name) eqn:Hd; [discriminate|]. intros _.
    apply find_zero_prefix, prefix_split in Hc. destruct Hc as (rest & ->).
    exists rest. split; [reflexivity|].
    apply find_single_none in Hd. exact Hd.
  - intros (rest & -> & Hrest).
    assert (Hc : Cxx.find "card" ("card" ++ rest) = Some O)
      by (apply find_zero_prefix, prefix_split; now exists rest).
    rewrite Hc.
    assert (Hd : Cxx.find "-" ("card" ++ rest) = None)
      by (apply find_single_none; exact Hrest).
    now rewrite Hd.
Qed.

(** ** The records of the Linux enumerator *)

Lemma Forall2_combine {A B : Type} (R : A -> B -> Prop) xs ys x y :
  Forall2 R xs ys -> In (x, y) (combine xs ys) -> R x y.
Proof.
  induction 1 as [|a b xs' ys' Hab _ IH]; simpl; [tauto|].
  intros [[= <- <-]|Hin]; auto.
Qed.

(** A record of the Linux enumeration is the record the loop body builds for
    its card entry. *)
Lemma linux_record_of nv entries gpus e g :
  detect_gpus (OnLinux (Linux.mkSysfs (Linux.DrmListing entries) nv))
  = Returned gpus ->
  In (e, g) (combine (cards entries) gpus) ->
  exists i, g = Linux.card_gpu nv i e.
Proof.
  cbn [detect_gpus]. rewrite detect_gpus_linux_listing. intros [= <-] Hin.
  refine (Forall2_combine (fun e g => exists i, g = Linux.card_gpu nv i e)
            _ _ e g _ Hin).
  apply number_Forall2. intros i x. now exists i.
Qed.

Lemma cards_nil entries :
  cards entries = []
  <-> Forall (fun e => Linux.is_card (Linux.filename e) = false) entries.
Proof.
  unfold cards. induction entries as [|e rest IH]; simpl.
  - split; constructor.
  - destruct (Linux.is_card (Linux.filename e)) eqn:E.
    + split; [discriminate|]. intros H. inversion H. congruence.
    + rewrite IH. split; [now constructor | intros H; now inversion H].
Qed.

(** X2. When the Linux enumeration of a listed directory returns, it
    returns one record for every card entry, in the order of the directory,
    each built by the loop body from its entry; entries that are no cards
    give nothing, and the result is empty exactly when the directory holds
    no card entry. *)
Theorem linux_records_follow_cards nv entries gpus :
  detect_gpus (OnLinux (Linux.mkSysfs (Linux.DrmListing entries) nv))
  = Returned gpus ->
  List.length gpus = List.length (cards entries)
  /\ Forall2 (fun e g => exists i, g = Linux.card_gpu nv i e)
             (cards entries) gpus
  /\ (gpus = []
      <-> Forall (fun e => Linux.is_card (Linux.filename e) = false) entries).
Proof.
  cbn [detect_gpus]. rewrite detect_gpus_linux_listing. intros [= <-].
  split; [apply number_length|].
  split; [apply number_Forall2; intros i x; now exists i|].
  rewrite <- cards_nil.
  destruct (cards entries); simpl; split; congruence.
Qed.

Lemma linux_records_follow_cards_witness :
  List.length [Sample.nvidia_gpu; Sample.amd_gpu]
  = List.length
      (cards [Sample.card "card0" "nvidia" "10DE:1B80";
              Sample.other "card0-HDMI-A-1"; Sample.other "renderD128";
              Sample.card "card1" "amdgpu" "1002:6798"; Sample.other "version"])
  /\ Forall2 (fun e g =>
                exists i,
                  g = Linux.card_gpu (Linux.nvidia_version Sample.two_cards) i e)
             (cards [Sample.card "card0" "nvidia" "10DE:1B80";
                     Sample.other "card0-HDMI-A-1"; Sample.other "renderD128";
                     Sample.card "card1" "amdgpu" "1002:6798";
                     Sample.other "version"])
             [Sample.nvidia_gpu; Sample.amd_gpu]
  /\ ([Sample.nvidia_gpu; Sample.amd_gpu] = []
      <-> Forall (fun e => Linux.is_card (Linux.filename e) = false)
            [Sample.card "card0" "nvidia" "10DE:1B80";
             Sample.other "card0-HDMI-A-1"; Sample.other "renderD128";
             Sample.card "card1" "amdgpu" "1002:6798"; Sample.other "version"]).
Proof.
  apply (linux_records_follow_cards (Linux.nvidia_version Sample.two_cards)).
  vm_compute. reflexivity.
Defined.

Lemma warning_is_no_other_diagnostic :
  (forall idx size, out_of_range_error idx size <> no_gpu_warning)
  /\ (forall arg, invalid_argument_error arg <> no_gpu_warning)
  /\ too_many_arguments_error <> no_gpu_warning.
Proof. repeat split; intros; cbn; intros [=]. Qed.

(** With a record, no run ends on the no-GPU warning. *)
Lemma no_warning_with_records gpu0 rest argc argv :
  plugin_run_on (Returned (gpu0 :: rest)) argc argv
  <> Some (mkRun 1 "" no_gpu_warning).
Proof.
  destruct warning_is_no_other_diagnostic as (Ho & Hi & Ht).
  cbn [plugin_run_on].
  destruct (argc =? 1).
  { destruct (first_active (gpu0 :: rest)); discriminate. }
  destruct (argc =? 2); [|intros H; apply Ht; congruence].
  destruct (nth_error argv 1) as [arg|]; [|discriminate].
  destruct ((arg =? "help")%string || (arg =? "--help")%string
            || (arg =? "-h")%string); [discriminate|].
  destruct (arg =? "all")%string; [discriminate|].
  destruct (select_index_paths (gpu0 :: rest) arg) as (r & -> & Hpath).
  destruct Hpath as [(gpu & _ & ->)|[(idx & ->)| ->]].
  - discriminate.
  - intros H. apply (Ho idx (List.length (gpu0 :: rest))). congruence.
  - intros H. apply (Hi arg). congruence.
Qed.

(** X3. How a run ends on Linux when no record can be had, for every
    argument count and argument list: without /sys/class/drm the no-GPU
    warning and 1; when the directory cannot be listed the message of the
    exception after "Error: " and 1; with a listed directory the no-GPU
    warning exactly when it holds no card entry. *)
Theorem linux_failure_modes nv argc argv :
  plugin_run (OnLinux (Linux.mkSysfs Linux.DrmAbsent nv)) argc argv
  = Some (mkRun 1 "" no_gpu_warning)
  /\ (forall what,
        plugin_run (OnLinux (Linux.mkSysfs (Linux.DrmFails what) nv)) argc argv
        = Some (mkRun 1 ""
                  (Color.YELLOW ++ "Error: " ++ what ++ Color.RESET ++ Cxx.nl)))
  /\ (forall entries,
        plugin_run (OnLinux (Linux.mkSysfs (Linux.DrmListing entries) nv))
                   argc argv
        = Some (mkRun 1 "" no_gpu_warning)
        <-> Forall (fun e => Linux.is_card (Linux.filename e) = false) entries).
Proof.
  split; [reflexivity|]. split; [reflexivity|].
  intros entries. rewrite <- cards_nil.
  unfold plugin_run. cbn [detect_gpus]. rewrite detect_gpus_linux_listing.
  destruct (cards entries) as [|e rest] eqn:Hc.
  - simpl. now split.
  - cbn [number]. split; [|discriminate].
    intros H. now apply no_warning_with_records in H.
Qed.

(** ** Reading the uevent file *)

Lemma getlines_from_line l : forall cur fresh rest,
  Text.single_line l = true ->
  Cxx.getlines_from (l ++ Cxx.nl ++ rest) cur fresh
  = (cur ++ l) :: Cxx.getlines_from rest "" true.
Proof.
  unfold Text.single_line, Text.without_char.
  induction l as [|c r IH]; intros cur fresh rest Hl.
  - cbn. now rewrite append_nil_r.
  - cbn [Text.every_char] in Hl. apply andb_true_iff in Hl.
    destruct Hl as [Hc Hr]. apply negb_true_iff in Hc.
    rewrite Ascii.eqb_sym in Hc.
    cbn [append Cxx.getlines_from]. rewrite Hc, (IH _ _ _ Hr).
    now rewrite append_assoc.
Qed.

(** The loop over [std::getline] delivers the lines of a text file. *)
Lemma getlines_unlines ls :
  forallb Text.single_line ls = true ->
  Cxx.getlines (Text.unlines ls) = ls.
Proof.
  unfold Cxx.getlines. induction ls as [|l rest IH]; [reflexivity|].
  cbn [forallb Text.unlines]. intros H. apply andb_true_iff in H.
  destruct H as [Hl Hrest].
  rewrite (getlines_from_line l "" true _ Hl). cbn [append].
  now rewrite IH.
Qed.

Lemma substring_all s : forall m,
  (String.length s <= m)%nat -> substring 0 m s = s.
Proof.
  induction s as [|c r IH]; intros m Hm.
  - destruct m; reflexivity.
  - destruct m as [|m]; [simpl in Hm; lia|].
    simpl. rewrite IH; [reflexivity | simpl in Hm; lia].
Qed.

Lemma substring_skip p : forall m r,
  substring (String.length p) m (p ++ r) = substring 0 m r.
Proof. induction p as [|c p IH]; intros m r; simpl; [reflexivity | apply IH]. Qed.

Lemma substring_take v : forall r,
  substring 0 (String.length v) (v ++ r) = v.
Proof.
  induction v as [|c v IH]; intro r; simpl.
  - destruct r; reflexivity.
  - now rewrite IH.
Qed.

Lemma substr_from_skip p r : Cxx.substr_from (String.length p) (p ++ r) = r.
Proof.
  unfold Cxx.substr_from. rewrite substring_skip.
  apply substring_all. rewrite length_append. lia.
Qed.

Lemma find_char_first c v : forall d,
  Text.without_char c v = true ->
  Cxx.find_char c (v ++ String c d) = Some (String.length v).
Proof.
  unfold Text.without_char.
  induction v as [|x v IH]; intros d Hv; simpl.
  - now rewrite Ascii.eqb_refl.
  - simpl in Hv. apply andb_true_iff in Hv. destruct Hv as [Hx Hv].
    apply negb_true_iff in Hx. now rewrite Hx, IH.
Qed.

(** The line PCI_ID=v:d sets the three locals, whatever they held. *)
Lemma uevent_line_pci_id st v d :
  Text.without_char ":" v = true ->
  Linux.uevent_line st ("PCI_ID=" ++ v ++ ":" ++ d)
  = Linux.mkUevent (v ++ ":" ++ d) v d.
Proof.
  intros Hv. unfold Linux.uevent_line.
  assert (Hf : Cxx.find "PCI_ID=" ("PCI_ID=" ++ v ++ ":" ++ d) = Some O)
    by (apply find_zero_prefix, prefix_split; now eexists).
  rewrite Hf.
  change 7%nat with (String.length "PCI_ID=").
  rewrite substr_from_skip.
  change (":" ++ d) with (String ":" d).
  rewrite (find_char_first ":" v d Hv).
  unfold Cxx.substr. rewrite substring_take. f_equal.
  change (String ":" d) with (":" ++ d). rewrite <- append_assoc.
  replace (String.length v + 1)%nat with (String.length (v ++ ":"))
    by (rewrite length_append; reflexivity).
  apply substr_from_skip.
Qed.

Lemma uevent_line_other st line :
  Text.pci_id_line line = false -> Linux.uevent_line st line = st.
Proof.
  unfold Text.pci_id_line, Linux.uevent_line.
  destruct (Cxx.find "PCI_ID=" line) as [[|n]|]; [discriminate| |]; reflexivity.
Qed.

Lemma scan_other lines : forall st,
  forallb (fun l => negb (Text.pci_id_line l)) lines = true ->
  fold_left Linux.uevent_line lines st = st.
Proof.
  induction lines as [|l rest IH]; intros st H; [reflexivity|].
  cbn [forallb] in H. apply andb_true_iff in H. destruct H as [Hl Hrest].
  apply negb_true_iff in Hl. cbn [fold_left].
  now rewrite (uevent_line_other st l Hl), IH.
Qed.

Lemma single_line_append a b :
  Text.single_line (a ++ b) = Text.single_line a && Text.single_line b.
Proof. apply every_char_append. Qed.

(** X4. A uevent file of lines ended by line breaks whose last PCI_ID line
    is PCI_ID=v:d (v without colon) gives the record the PCI id v:d and the
    vendor that the lookup gives for v; PCI_ID lines before it are
    overwritten and other lines are ignored. *)
Theorem uevent_pci_id_line nv entries gpus e g before v d after :
  detect_gpus (OnLinux (Linux.mkSysfs (Linux.DrmListing entries) nv))
  = Returned gpus ->
  In (e, g) (combine (cards entries) gpus) ->
  Linux.uevent e
  = Linux.Readable
      (Text.unlines (before ++ ("PCI_ID=" ++ v ++ ":" ++ d) :: after)) ->
  forallb Text.single_line (before ++ after) = true ->
  Text.single_line v = true ->
  Text.single_line d = true ->
  Text.without_char ":" v = true ->
  forallb (fun l => negb (Text.pci_id_line l)) after = true ->
  pci_id g = v ++ ":" ++ d /\ vendor g = get_vendor_name v.
Proof.
  intros Hd Hin Hfile Hlines Hv Hdv Hcolon Hafter.
  destruct (linux_record_of nv entries gpus e g Hd Hin) as (i & ->).
  unfold Linux.card_gpu, Linux.read_uevent. rewrite Hfile.
  cbn [Linux.exists_ Linux.lines].
  rewrite getlines_unlines.
  - unfold Linux.scan_uevent. rewrite fold_left_app. cbn [fold_left].
    rewrite (uevent_line_pci_id _ v d Hcolon), (scan_other after _ Hafter).
    cbn. now split.
  - rewrite forallb_app in *. apply andb_true_iff in Hlines.
    destruct Hlines as [Hb Ha]. rewrite Hb. cbn [forallb andb].
    rewrite Ha, andb_true_r.
    rewrite !single_line_append, Hv, Hdv. reflexivity.
Qed.

Lemma uevent_pci_id_line_witness :
  pci_id Sample.amd_gpu = "1002" ++ ":" ++ "6798"
  /\ vendor Sample.amd_gpu = get_vendor_name "1002".
Proof.
  apply (uevent_pci_id_line
           (Linux.nvidia_version Sample.two_cards)
           [Sample.card "card0" "nvidia" "10DE:1B80"; Sample.other "card0-HDMI-A-1";
            Sample.other "renderD128"; Sample.card "card1" "amdgpu" "1002:6798";
            Sample.other "version"]
           [Sample.nvidia_gpu; Sample.amd_gpu]
           (Sample.card "card1" "amdgpu" "1002:6798") Sample.amd_gpu
           ["DRIVER=amdgpu"; "PCI_CLASS=30000"] "1002" "6798"
           ["PCI_SLOT_NAME=0000:01:00.0"]).
  - vm_compute. reflexivity.
  - vm_compute. right. left. reflexivity.
  - reflexivity.
  - reflexivity.
  - reflexivity.
  - reflexivity.
  - reflexivity.
  - reflexivity.
Defined.

(** X5. A card whose uevent file exists and holds no PCI_ID line (an empty
    or unreadable file included) gets the vendor Unknown, no PCI id and no
    driver version, and the name "Unknown GPU" when no name file gives
    one. *)
Theorem uevent_without_pci_id nv entries gpus e g :
  detect_gpus (OnLinux (Linux.mkSysfs (Linux.DrmListing entries) nv))
  = Returned gpus ->
  In (e, g) (combine (cards entries) gpus) ->
  Linux.exists_ (Linux.uevent e) = true ->
  forallb (fun l => negb (Text.pci_id_line l)) (Linux.lines (Linux.uevent e))
  = true ->
  pci_id g = "" /\ vendor g = "Unknown" /\ driver_version g = ""
  /\ (unnamed e -> name g = "Unknown GPU").
Proof.
  intros Hd Hin Hex Hlines.
  destruct (linux_record_of nv entries gpus e g Hd Hin) as (i & ->).
  unfold Linux.card_gpu, Linux.read_uevent, Linux.scan_uevent.
  rewrite Hex, (scan_other _ _ Hlines). cbn.
  repeat split. intros (Hl & Hp & Hm). now rewrite Hl, Hp, Hm.
Qed.

Lemma uevent_without_pci_id_witness :
  pci_id (mkGPUInfo "Unknown GPU" "Unknown" "" "" 0 true) = ""
  /\ vendor (mkGPUInfo "Unknown GPU" "Unknown" "" "" 0 true) = "Unknown"
  /\ driver_version (mkGPUInfo "Unknown GPU" "Unknown" "" "" 0 true) = ""
  /\ (unnamed (Linux.mkEntry "card0" Linux.Unreadable
                 Linux.Absent Linux.Absent Linux.Absent) ->
      name (mkGPUInfo "Unknown GPU" "Unknown" "" "" 0 true) = "Unknown GPU").
Proof.
  apply (uevent_without_pci_id Linux.Absent
           [Linux.mkEntry "card0" Linux.Unreadable
              Linux.Absent Linux.Absent Linux.Absent]
           [mkGPUInfo "Unknown GPU" "Unknown" "" "" 0 true]).
  - vm_compute. reflexivity.
  - vm_compute. left. reflexivity.
  - reflexivity.
  - reflexivity.
Defined.

(** X6. A card without uevent file gets the empty vendor, no PCI id and no
    driver version, and the name " GPU" when no name file gives one: the
    vendor lookup is not reached. *)
Theorem uevent_absent nv entries gpus e g :
  detect_gpus (OnLinux (Linux.mkSysfs (Linux.DrmListing entries) nv))
  = Returned gpus ->
  In (e, g) (combine (cards entries) gpus) ->
  Linux.uevent e = Linux.Absent ->
  pci_id g = "" /\ vendor g = "" /\ driver_version g = ""
  /\ (unnamed e -> name g = " GPU").
Proof.
  intros Hd Hin Habs.
  destruct (linux_record_of nv entries gpus e g Hd Hin) as (i & ->).
  unfold Linux.card_gpu, Linux.read_uevent. rewrite Habs. cbn.
  repeat split. intros (Hl & Hp & Hm). now rewrite Hl, Hp, Hm.
Qed.

Lemma uevent_absent_witness :
  pci_id (mkGPUInfo " GPU" "" "" "" 0 true) = ""
  /\ vendor (mkGPUInfo " GPU" "" "" "" 0 true) = ""
  /\ driver_version (mkGPUInfo " GPU" "" "" "" 0 true) = ""
  /\ (unnamed (Sample.other "card0") ->
      name (mkGPUInfo " GPU" "" "" "" 0 true) = " GPU").
Proof.
  apply (uevent_absent Linux.Absent [Sample.other "card0"]
           [mkGPUInfo " GPU" "" "" "" 0 true]).
  - vm_compute. reflexivity.
  - vm_compute. left. reflexivity.
  - reflexivity.
Defined.

(** ** The fields of a Linux record *)

Lemma linux_record_in nv entries gpus g :
  detect_gpus (OnLinux (Linux.mkSysfs (Linux.DrmListing entries) nv))
  = Returned gpus ->
  In g gpus ->
  exists i e, g = Linux.card_gpu nv i e.
Proof.
  cbn [detect_gpus]. rewrite detect_gpus_linux_listing. intros [= <-] Hin.
  assert (H : Forall (fun g => exists i e, g = Linux.card_gpu nv i e)
                (number (Linux.card_gpu nv) 0 (cards entries)))
    by (apply number_Forall; intros i e; now exists i, e).
  rewrite Forall_forall in H. now apply H.
Qed.

Lemma every_char_weaken (p q : ascii -> bool) s :
  (forall c, p c = true -> q c = true) ->
  Text.every_char p s = true -> Text.every_char q s = true.
Proof.
  intros Hpq. induction s as [|c r IH]; simpl; [reflexivity|].
  intros H. apply andb_true_iff in H. destruct H as [Hc Hr].
  now rewrite (Hpq c Hc), IH.
Qed.

Lemma every_char_substring p s : forall n m,
  Text.every_char p s = true -> Text.every_char p (substring n m s) = true.
Proof.
  induction s as [|c r IH]; intros n m H.
  - destruct n, m; reflexivity.
  - simpl in H. apply andb_true_iff in H. destruct H as [Hc Hr].
    destruct n as [|n]; [destruct m as [|m]|]; simpl; auto.
    now rewrite Hc, IH.
Qed.

Lemma no_space_single_line s :
  Text.no_space s = true -> Text.single_line s = true.
Proof.
  apply every_char_weaken. intros c Hc.
  destruct (Ascii.eqb_spec Cxx.newline c) as [<-|]; [discriminate Hc | reflexivity].
Qed.

Lemma take_word_no_space w : Text.no_space (Cxx.take_word w) = true.
Proof.
  unfold Text.no_space. induction w as [|c r IH]; simpl; [reflexivity|].
  destruct (Cxx.isspace c) eqn:E; simpl; [reflexivity|]. now rewrite E, IH.
Qed.

Lemma extract_token_no_space s t :
  Cxx.extract_token s = Some t -> Text.no_space t = true.
Proof.
  unfold Cxx.extract_token. destruct (Cxx.skip_space s) as [|c w]; [discriminate|].
  intros [= <-]. apply (take_word_no_space (String c w)).
Qed.

Lemma version_line_no_space driver line :
  Text.no_space driver = true ->
  Text.no_space (Linux.version_line driver line) = true.
Proof.
  intros Hd. unfold Linux.version_line.
  destruct (Cxx.find "Kernel Module" line) as [pos|]; [|exact Hd].
  destruct (Cxx.extract_token _) as [t|] eqn:E; [|exact Hd].
  now apply extract_token_no_space in E.
Qed.

Lemma read_driver_version_no_space ven nv :
  Text.no_space (Linux.read_driver_version ven nv) = true.
Proof.
  unfold Linux.read_driver_version.
  destruct (ven =? "NVIDIA")%string; [|reflexivity].
  destruct (Linux.exists_ nv); [|reflexivity].
  assert (H : forall ls acc, Text.no_space acc = true ->
                Text.no_space (fold_left Linux.version_line ls acc) = true).
  { induction ls as [|l rest IH]; intros acc Hacc; [exact Hacc|].
    apply IH. now apply version_line_no_space. }
  now apply H.
Qed.

(** X7. The driver version of a Linux record holds no white space; it is
    empty for every record whose vendor is not NVIDIA, and for every record
    when /proc/driver/nvidia/version gives no line. *)
Theorem driver_version_token nv entries gpus g :
  detect_gpus (OnLinux (Linux.mkSysfs (Linux.DrmListing entries) nv))
  = Returned gpus ->
  In g gpus ->
  Text.no_space (driver_version g) = true
  /\ (vendor g <> "NVIDIA" -> driver_version g = "")
  /\ (Linux.lines nv = [] -> driver_version g = "").
Proof.
  intros Hd Hin.
  destruct (linux_record_in nv entries gpus g Hd Hin) as (i & e & ->).
  unfold Linux.card_gpu. destruct (Linux.read_uevent (Linux.uevent e)) as [pci ven].
  cbn [driver_version vendor].
  split; [apply read_driver_version_no_space|].
  unfold Linux.read_driver_version. split.
  - intros Hven. destruct (String.eqb_spec ven "NVIDIA"); [contradiction | reflexivity].
  - intros Hnv. rewrite Hnv.
    destruct (ven =? "NVIDIA")%string, (Linux.exists_ nv); reflexivity.
Qed.

Lemma driver_version_token_witness :
  Text.no_space (driver_version Sample.nvidia_gpu) = true
  /\ (vendor Sample.nvidia_gpu <> "NVIDIA" -> driver_version Sample.nvidia_gpu = "")
  /\ (Linux.lines (Linux.nvidia_version Sample.two_cards) = [] ->
      driver_version Sample.nvidia_gpu = "").
Proof.
  apply (driver_version_token (Linux.nvidia_version Sample.two_cards)
           [Sample.card "card0" "nvidia" "10DE:1B80"; Sample.other "card0-HDMI-A-1";
            Sample.other "renderD128"; Sample.card "card1" "amdgpu" "1002:6798";
            Sample.other "version"]
           [Sample.nvidia_gpu; Sample.amd_gpu]).
  - vm_compute. reflexivity.
  - left. reflexivity.
Defined.

Lemma read_name_not_empty f n : Linux.read_name f = Some n -> n <> "".
Proof.
  unfold Linux.read_name. destruct (Linux.exists_ f); [|discriminate].
  destruct (Linux.lines f) as [|l rest]; [discriminate|].
  destruct l; simpl; [discriminate|]. intros [= <-]. discriminate.
Qed.

Lemma first_name_from paths n :
  Linux.first_name paths = Some n ->
  exists f, In f paths /\ Linux.read_name f = Some n.
Proof.
  induction paths as [|f rest IH]; simpl; [discriminate|].
  destruct (Linux.read_name f) as [m|] eqn:E.
  - intros [= <-]. exists f. auto.
  - intros H. destruct (IH H) as (f' & Hin & Hf'). exists f'. auto.
Qed.

Lemma fallback_name_not_empty ven pci : Linux.fallback_name ven pci <> "".
Proof.
  unfold Linux.fallback_name.
  destruct (negb (Cxx.empty pci)); destruct ven; discriminate.
Qed.

(** X8. The name of a Linux record is never empty: a name file is only
    taken with a non-empty first line, and the fallback ends in " GPU" or
    "]". *)
Theorem linux_name_not_empty nv entries gpus g :
  detect_gpus (OnLinux (Linux.mkSysfs (Linux.DrmListing entries) nv))
  = Returned gpus ->
  In g gpus ->
  name g <> "".
Proof.
  intros Hd Hin.
  destruct (linux_record_in nv entries gpus g Hd Hin) as (i & e & ->).
  unfold Linux.card_gpu. destruct (Linux.read_uevent (Linux.uevent e)) as [pci ven].
  cbn [name].
  destruct (Linux.first_name (Linux.name_paths e)) as [n|] eqn:E.
  - apply first_name_from in E. destruct E as (f & _ & Hf).
    now apply read_name_not_empty in Hf.
  - apply fallback_name_not_empty.
Qed.

Lemma linux_name_not_empty_witness : name Sample.amd_gpu <> "".
Proof.
  apply (linux_name_not_empty (Linux.nvidia_version Sample.two_cards)
           [Sample.card "card0" "nvidia" "10DE:1B80"; Sample.other "card0-HDMI-A-1";
            Sample.other "renderD128"; Sample.card "card1" "amdgpu" "1002:6798";
            Sample.other "version"]
           [Sample.nvidia_gpu; Sample.amd_gpu]).
  - vm_compute. reflexivity.
  - right. left. reflexivity.
Defined.

(** The lines of [std::getline] hold no line break. *)
Lemma getlines_from_single_line s : forall cur fresh,
  Text.single_line cur = true ->
  forallb Text.single_line (Cxx.getlines_from s cur fresh) = true.
Proof.
  induction s as [|c r IH]; intros cur fresh Hcur.
  - simpl. destruct fresh; simpl; [reflexivity | now rewrite Hcur].
  - cbn [Cxx.getlines_from].
    destruct (Ascii.eqb c Cxx.newline) eqn:E.
    + cbn [forallb]. rewrite Hcur. now apply IH.
    + apply IH. rewrite single_line_append, Hcur.
      change (Text.single_line (String c ""))
        with (negb (Ascii.eqb Cxx.newline c) && true).
      now rewrite Ascii.eqb_sym, E.
Qed.

Lemma lines_single_line f l :
  In l (Linux.lines f) -> Text.single_line l = true.
Proof.
  destruct f as [| |content]; simpl; try tauto.
  pose proof (getlines_from_single_line content "" true eq_refl) as H.
  rewrite forallb_forall in H. apply H.
Qed.

Lemma uevent_line_single_line st line :
  Text.single_line line = true ->
  Text.single_line (Linux.u_pci_id st) = true ->
  Text.single_line (Linux.u_vendor_id st) = true ->
  Text.single_line (Linux.u_pci_id (Linux.uevent_line st line)) = true
  /\ Text.single_line (Linux.u_vendor_id (Linux.uevent_line st line)) = true.
Proof.
  intros Hl Hp Hv. unfold Linux.uevent_line.
  destruct (Cxx.find "PCI_ID=" line) as [[|n]|]; auto.
  assert (Hpci : Text.single_line (Cxx.substr_from 7 line) = true)
    by (now apply every_char_substring).
  destruct (Cxx.find_char ":" _) as [colon|]; cbn; split; auto.
  now apply every_char_substring.
Qed.

Lemma scan_uevent_single_line ls : forall st,
  (forall l, In l ls -> Text.single_line l = true) ->
  Text.single_line (Linux.u_pci_id st) = true ->
  Text.single_line (Linux.u_vendor_id st) = true ->
  Text.single_line (Linux.u_pci_id (fold_left Linux.uevent_line ls st)) = true
  /\ Text.single_line (Linux.u_vendor_id (fold_left Linux.uevent_line ls st))
     = true.
Proof.
  induction ls as [|l rest IH]; intros st Hls Hp Hv; [now split|].
  cbn [fold_left].
  destruct (uevent_line_single_line st l (Hls l (or_introl eq_refl)) Hp Hv).
  apply IH; auto. intros l' Hl'. apply Hls. now right.
Qed.

Lemma get_vendor_name_single_line s :
  Text.single_line (get_vendor_name s) = true.
Proof.
  unfold get_vendor_name. cbv zeta.
  repeat match goal with |- context [if ?b then _ else _] => destruct b end;
    reflexivity.
Qed.

Lemma read_uevent_single_line f :
  Text.single_line (fst (Linux.read_uevent f)) = true
  /\ Text.single_line (snd (Linux.read_uevent f)) = true.
Proof.
  unfold Linux.read_uevent. destruct (Linux.exists_ f); [|now split].
  cbn [fst snd]. split; [|apply get_vendor_name_single_line].
  apply (scan_uevent_single_line (Linux.lines f));
    [apply lines_single_line | reflexivity | reflexivity].
Qed.

Lemma read_name_single_line f n :
  Linux.read_name f = Some n -> Text.single_line n = true.
Proof.
  unfold Linux.read_name. destruct (Linux.exists_ f); [|discriminate].
  destruct (Linux.lines f) as [|l rest] eqn:E; [discriminate|].
  destruct (Cxx.empty l); [discriminate|]. intros [= <-].
  apply (lines_single_line f). rewrite E. now left.
Qed.

(** X9. No field of a Linux record holds a line break: the name, the
    vendor, the driver version and the PCI id each fit on the line that
    [print_field] writes for them. *)
Theorem linux_fields_single_line nv entries gpus g :
  detect_gpus (OnLinux (Linux.mkSysfs (Linux.DrmListing entries) nv))
  = Returned gpus ->
  In g gpus ->
  Text.single_line (name g) = true
  /\ Text.single_line (vendor g) = true
  /\ Text.single_line (driver_version g) = true
  /\ Text.single_line (pci_id g) = true.
Proof.
  intros Hd Hin.
  destruct (linux_record_in nv entries gpus g Hd Hin) as (i & e & ->).
  unfold Linux.card_gpu.
  destruct (read_uevent_single_line (Linux.uevent e)) as [Hpci Hven].
  destruct (Linux.read_uevent (Linux.uevent e)) as [pci ven].
  cbn [fst snd] in *. cbn [name vendor driver_version pci_id].
  repeat split; auto.
  - destruct (Linux.first_name (Linux.name_paths e)) as [n|] eqn:E.
    + apply first_name_from in E. destruct E as (f & _ & Hf).
      now apply read_name_single_line in Hf.
    + unfold Linux.fallback_name.
      destruct (negb (Cxx.empty pci));
        rewrite ?single_line_append, Hven, ?Hpci; reflexivity.
  - apply no_space_single_line, read_driver_version_no_space.
Qed.

Lemma linux_fields_single_line_witness :
  Text.single_line (name Sample.nvidia_gpu) = true
  /\ Text.single_line (vendor Sample.nvidia_gpu) = true
  /\ Text.single_line (driver_version Sample.nvidia_gpu) = true
  /\ Text.single_line (pci_id Sample.nvidia_gpu) = true.
Proof.
  apply (linux_fields_single_line (Linux.nvidia_version Sample.two_cards)
           [Sample.card "card0" "nvidia" "10DE:1B80"; Sample.other "card0-HDMI-A-1";
            Sample.other "renderD128"; Sample.card "card1" "amdgpu" "1002:6798";
            Sample.other "version"]
           [Sample.nvidia_gpu; Sample.amd_gpu]).
  - vm_compute. reflexivity.
  - left. reflexivity.
Defined.

(** ** The hardware id of the Windows enumerator *)

Lemma hex_digit_is_not_V c : Text.is_hex_digit c = true -> c <> "V"%char.
Proof. intros H ->. discriminate H. Qed.

Lemma prefix_nil s : prefix "" s = true.
Proof. destruct s; reflexivity. Qed.

Lemma find_ven v d rest :
  Cxx.find "VEN_" ("PCI\VEN_" ++ v ++ "&DEV_" ++ d ++ rest) = Some 4%nat.
Proof.
  unfold Cxx.find. cbn -[ascii_dec].
  repeat match goal with
         | |- context [ascii_dec ?a ?b] => destruct (ascii_dec a b); try congruence
         end.
  now rewrite prefix_nil.
Qed.

Lemma find_dev v0 v1 v2 v3 tail :
  Text.is_hex_digit v2 = true ->
  Cxx.find "DEV_"
    ("PCI\VEN_" ++ String v0 (String v1 (String v2 (String v3 ("&DEV_" ++ tail)))))
  = Some 13%nat.
Proof.
  intros Hhex. apply hex_digit_is_not_V in Hhex.
  unfold Cxx.find. cbn -[ascii_dec].
  repeat match goal with
         | |- context [ascii_dec ?a ?b] =>
             destruct (ascii_dec a b); try congruence; try discriminate
         end.
  all: rewrite ?prefix_nil; try reflexivity.
Qed.

Lemma windows_record_of devices gpus dev g :
  detect_gpus (OnWindows (Windows.DevInfoSet devices)) = Returned gpus ->
  In (dev, g) (combine devices gpus) ->
  exists i, g = Windows.adapter_gpu i dev.
Proof.
  cbn [detect_gpus]. rewrite detect_gpus_windows_set. intros [= <-] Hin.
  refine (Forall2_combine (fun d g => exists i, g = Windows.adapter_gpu i d)
            _ _ dev g _ Hin).
  apply number_Forall2. intros i x. now exists i.
Qed.

(** X10. On the Windows path a hardware id that starts with
    PCI\VEN_vvvv&DEV_dddd, vvvv four hexadecimal digits and dddd four
    characters, gives the record the PCI id vvvv:dddd. *)
Theorem hardware_id_pci_id devices gpus dev g v d rest :
  detect_gpus (OnWindows (Windows.DevInfoSet devices)) = Returned gpus ->
  In (dev, g) (combine devices gpus) ->
  Windows.hardwareid dev = Some ("PCI\VEN_" ++ v ++ "&DEV_" ++ d ++ rest) ->
  String.length v = 4%nat ->
  String.length d = 4%nat ->
  Text.every_char Text.is_hex_digit v = true ->
  pci_id g = v ++ ":" ++ d.
Proof.
  intros Hd Hin Hhw Hv Hdl Hhex.
  destruct (windows_record_of devices gpus dev g Hd Hin) as (i & ->).
  unfold Windows.adapter_gpu. cbn [pci_id]. rewrite Hhw.
  unfold Windows.parse_hwid. rewrite find_ven.
  destruct v as [|v0 [|v1 [|v2 [|v3 [|]]]]]; try discriminate Hv.
  destruct d as [|d0 [|d1 [|d2 [|d3 [|]]]]]; try discriminate Hdl.
  assert (H2 : Text.is_hex_digit v2 = true).
  { cbn [Text.every_char] in Hhex.
    repeat (apply andb_true_iff in Hhex; destruct Hhex as [? Hhex]).
    assumption. }
  pose proof (find_dev v0 v1 v2 v3
                (String d0 (String d1 (String d2 (String d3 rest)))) H2) as Hdev.
  cbn [append] in *. rewrite Hdev.
  unfold Cxx.substr. cbn. destruct rest; reflexivity.
Qed.

Lemma hardware_id_pci_id_witness :
  pci_id (mkGPUInfo "Intel(R) UHD Graphics 630" ""
            "{4d36e968-e325-11ce-bfc1-08002be10318}\0001" "8086:3E92" 0 true)
  = "8086" ++ ":" ++ "3E92".
Proof.
  apply (hardware_id_pci_id
           [Windows.mkDevice (Some "Intel(R) UHD Graphics 630") None
              (Some "{4d36e968-e325-11ce-bfc1-08002be10318}\0001")
              (Some "PCI\VEN_8086&DEV_3E92&SUBSYS_86941043&REV_00")]
           [mkGPUInfo "Intel(R) UHD Graphics 630" ""
              "{4d36e968-e325-11ce-bfc1-08002be10318}\0001" "8086:3E92" 0 true]
           (Windows.mkDevice (Some "Intel(R) UHD Graphics 630") None
              (Some "{4d36e968-e325-11ce-bfc1-08002be10318}\0001")
              (Some "PCI\VEN_8086&DEV_3E92&SUBSYS_86941043&REV_00"))
           _ "8086" "3E92" "&SUBSYS_86941043&REV_00").
  - vm_compute. reflexivity.
  - left. reflexivity.
  - reflexivity.
  - reflexivity.
  - reflexivity.
  - reflexivity.
Defined.

(** ** Printing an index and reading it back *)

Lemma string_of_uint_value d :
  Spec.all_digits (NilEmpty.string_of_uint d) = true
  /\ String.length (NilEmpty.string_of_uint d)
     = N.to_nat (DecimalPos.Unsigned.usize d)
  /\ Spec.numeral_value (NilEmpty.string_of_uint d)
     = Z.of_N (DecimalPos.Unsigned.of_lu (Decimal.rev d)).
Proof.
  induction d as [|d IH|d IH|d IH|d IH|d IH|d IH|d IH|d IH|d IH|d IH];
    [repeat split| ..];
    destruct IH as (Hall & Hlen & Hval);
    (split; [cbn; exact Hall|]);
    (split; [cbn [NilEmpty.string_of_uint String.length DecimalPos.Unsigned.usize];
             rewrite Hlen; lia|]);
    cbn [NilEmpty.string_of_uint Spec.numeral_value];
    unfold Decimal.rev; cbn [Decimal.revapp];
    rewrite DecimalPos.Unsigned.of_lu_revapp, Hval, Hlen;
    rewrite N2Z.inj_add, N2Z.inj_mul, N2Z.inj_pow, N_nat_Z;
    unfold Decimal.rev;
    change (Z.of_N 10) with 10;
    generalize (Z.of_N (Unsigned.of_lu (Decimal.revapp d Decimal.Nil)));
    generalize (10 ^ Z.of_N (Unsigned.usize d)); intros pw low;
    match goal with
    | |- context [Cxx.digit_value ?c] =>
        let v := eval vm_compute in (Cxx.digit_value c) in
        change (Cxx.digit_value c) with v
    end;
    match goal with
    | |- context [Z.of_N (Unsigned.of_lu (?D Decimal.Nil))] =>
        let v := eval vm_compute in (Z.of_N (Unsigned.of_lu (D Decimal.Nil))) in
        change (Z.of_N (Unsigned.of_lu (D Decimal.Nil))) with v
    end;
    lia.
Qed.

(** The decimal text of a non-negative integer is a numeral of that value. *)
Lemma to_string_numeral z :
  0 <= z ->
  Spec.decimal_numeral (Cxx.to_string z) = true
  /\ Spec.numeral_value (Cxx.to_string z) = z.
Proof.
  intros Hz. unfold Cxx.to_string. destruct z as [|p|p]; [now split| |lia].
  cbn [Z.to_int NilZero.string_of_int].
  pose proof (DecimalPos.Unsigned.to_uint_nonnil p) as Hnil.
  pose proof (DecimalPos.Unsigned.of_to p) as Hof.
  rewrite DecimalPos.Unsigned.of_uint_alt in Hof.
  destruct (string_of_uint_value (Pos.to_uint p)) as (Hall & Hlen & Hval).
  unfold NilZero.string_of_uint.
  destruct (Pos.to_uint p) eqn:E; try contradiction;
    (split; [unfold Spec.decimal_numeral; rewrite Hall; reflexivity
            | rewrite Hval, Hof; reflexivity]).
Qed.

Lemma stoi_to_string z :
  0 <= z <= Cxx.INT_MAX -> Cxx.stoi (Cxx.to_string z) = Cxx.Parsed z.
Proof.
  intros Hz. destruct (to_string_numeral z) as (Hnum & Hval); [lia|].
  rewrite (stoi_numeral _ Hnum), Hval.
  destruct (Z.leb_spec z Cxx.INT_MAX); [|lia].
  destruct (Z.leb_spec Cxx.INT_MIN z); [reflexivity|].
  unfold Cxx.INT_MIN in *. lia.
Qed.

(** The index branch on an index within the records. *)
Lemma select_index_in_range gpus arg idx gpu :
  Cxx.stoi arg = Cxx.Parsed idx ->
  Z.of_nat (List.length gpus) <= Cxx.INT_MAX ->
  nth_error gpus (Z.to_nat idx) = Some gpu ->
  0 <= idx ->
  select_index gpus arg = Some (mkRun 0 (display_gpu gpu false) "").
Proof.
  intros Hstoi Hlen Hnth Hidx. unfold select_index. rewrite Hstoi.
  rewrite to_int_small by (unfold Cxx.INT_MIN; lia).
  assert (Hlt : (Z.to_nat idx < List.length gpus)%nat)
    by (apply nth_error_Some; congruence).
  replace ((idx <? 0) || (idx >=? Z.of_nat (List.length gpus))) with false.
  - now rewrite Hnth.
  - symmetry. apply orb_false_iff. split; [lia|].
    rewrite Z.geb_leb. apply Z.leb_gt. lia.
Qed.

(** X11. The index a record is displayed with selects that record: for
    every record of an enumeration (of a count within [int]), the run with
    the decimal text of its index as the argument displays this record and
    returns 0. *)
Theorem shown_index_selects_record h gpus prog gpu :
  detect_gpus h = Returned gpus ->
  Z.of_nat (List.length gpus) <= Cxx.INT_MAX ->
  In gpu gpus ->
  plugin_run h 2 [prog; Cxx.to_string (index gpu)]
  = Some (mkRun 0 (display_gpu gpu false) "").
Proof.
  intros Hd Hlen Hin.
  destruct (In_nth_error _ _ Hin) as (k & Hk).
  assert (Hklt : (k < List.length gpus)%nat) by (apply nth_error_Some; congruence).
  assert (Hidx : index gpu = Z.of_nat k).
  { pose proof (map_nth_error index _ _ Hk) as Hm.
    rewrite (detect_gpus_indices h gpus Hd Hlen) in Hm.
    rewrite nth_error_map, nth_error_nth' with (d := O) in Hm
      by (rewrite length_seq; exact Hklt).
    rewrite seq_nth in Hm by exact Hklt. simpl in Hm. congruence. }
  assert (Hstoi : Cxx.stoi (Cxx.to_string (index gpu)) = Cxx.Parsed (index gpu))
    by (apply stoi_to_string; lia).
  assert (Hne : gpus <> []) by (destruct gpus; [destruct Hin | discriminate]).
  assert (Hkw : Spec.recognized (Cxx.to_string (index gpu)) = false)
    by (apply not_recognized_of_stoi; rewrite Hstoi; discriminate).
  unfold plugin_run. rewrite Hd, (plugin_run_on_index gpus prog _ Hne Hkw).
  apply (select_index_in_range gpus _ (index gpu) gpu Hstoi Hlen); [|lia].
  rewrite Hidx, Nat2Z.id. exact Hk.
Qed.

Lemma shown_index_selects_record_witness :
  plugin_run (OnLinux Sample.two_cards) 2 ["gpu"; Cxx.to_string (index Sample.amd_gpu)]
  = Some (mkRun 0 (display_gpu Sample.amd_gpu false) "").
Proof.
  apply (shown_index_selects_record (OnLinux Sample.two_cards)
           [Sample.nvidia_gpu; Sample.amd_gpu] "gpu" Sample.amd_gpu).
  - vm_compute. reflexivity.
  - vm_compute. discriminate.
  - right. left. reflexivity.
Defined.

(** ** Runs without argument, with a negative index, with [all] *)

Lemma first_record_active h gpu0 rest :
  detect_gpus h = Returned (gpu0 :: rest) ->
  is_active gpu0 = true /\ index gpu0 = 0.
Proof.
  intros Hd.
  destruct (detect_gpus_numbered h _ Hd) as (A & make & xs & Hg & Hi & Ha).
  destruct xs as [|x xs']; [discriminate Hg|].
  cbn [number] in Hg. injection Hg as -> _.
  now rewrite Ha, Hi.
Qed.

(** X12. Without argument the run displays the first record of the
    enumeration and returns 0, and never reads [argv]; the argument "0" gives
    the same run. *)
Theorem no_argument_shows_first h gpu0 rest prog argv :
  detect_gpus h = Returned (gpu0 :: rest) ->
  Z.of_nat (List.length (gpu0 :: rest)) <= Cxx.INT_MAX ->
  plugin_run h 1 argv = Some (mkRun 0 (display_gpu gpu0 false) "")
  /\ plugin_run h 2 [prog; "0"] = plugin_run h 1 argv.
Proof.
  intros Hd Hlen.
  destruct (first_record_active h gpu0 rest Hd) as [Hact _].
  assert (H1 : plugin_run h 1 argv = Some (mkRun 0 (display_gpu gpu0 false) "")).
  { unfold plugin_run. rewrite Hd. cbn [plugin_run_on Z.eqb Pos.eqb first_active].
    now rewrite Hact. }
  split; [exact H1|]. rewrite H1.
  unfold plugin_run. rewrite Hd.
  rewrite plugin_run_on_index by (discriminate || reflexivity).
  now apply (select_index_in_range (gpu0 :: rest) "0" 0 gpu0).
Qed.

Lemma no_argument_shows_first_witness :
  plugin_run (OnLinux Sample.two_cards) 1 ["gpu"]
  = Some (mkRun 0 (display_gpu Sample.nvidia_gpu false) "")
  /\ plugin_run (OnLinux Sample.two_cards) 2 ["gpu"; "0"]
     = plugin_run (OnLinux Sample.two_cards) 1 ["gpu"].
Proof.
  apply (no_argument_shows_first (OnLinux Sample.two_cards)
           Sample.nvidia_gpu [Sample.amd_gpu] "gpu" ["gpu"]).
  - vm_compute. reflexivity.
  - vm_compute. discriminate.
Defined.

(** [stoi] on a numeral with a minus sign. *)
Lemma stoi_minus_numeral s :
  Spec.decimal_numeral s = true ->
  Spec.numeral_value s <= 2147483648 ->
  Cxx.stoi ("-" ++ s) = Cxx.Parsed (- Spec.numeral_value s).
Proof.
  unfold Spec.decimal_numeral. destruct s as [|c r]; [discriminate|].
  cbn [Cxx.empty negb andb]. intros Hall Hmax.
  pose proof (all_digits_prefix _ Hall) as Hpre.
  assert (Hnonneg : forall t acc, Spec.all_digits t = true -> 0 <= acc ->
                      0 <= Cxx.digits_value acc t).
  { induction t as [|x t IH]; intros acc Ht Hacc; [exact Hacc|].
    cbn [Spec.all_digits] in Ht. apply andb_true_iff in Ht.
    destruct Ht as [Hx Ht]. cbn [Cxx.digits_value]. apply IH; [exact Ht|].
    unfold Cxx.isdigit in Hx. apply andb_true_iff in Hx. destruct Hx as [Hlo _].
    apply Nat.leb_le in Hlo. unfold Cxx.digit_value. lia. }
  pose proof (Hnonneg _ 0 Hall (Z.le_refl 0)) as H0.
  unfold Cxx.stoi.
  change (Cxx.strip_sign (Cxx.skip_space ("-" ++ String c r)))
    with (true, String c r).
  cbv beta iota. rewrite Hpre. rewrite digits_value_positional in *.
  rewrite Z.mul_0_l, Z.add_0_l in *.
  replace ((Cxx.INT_MIN <=? - Spec.numeral_value (String c r))
           && (- Spec.numeral_value (String c r) <=? Cxx.INT_MAX)) with true;
    [reflexivity|].
  symmetry. apply andb_true_iff. unfold Cxx.INT_MIN, Cxx.INT_MAX.
  split; apply Z.leb_le; lia.
Qed.

(** X13. A decimal numeral of a value from 1 to 2^31 with a minus sign
    before it is read as a negative index: with at least one record the run
    writes the out-of-range diagnostic with that negative index and returns
    1. *)
Theorem negative_index_out_of_range h gpus prog s :
  detect_gpus h = Returned gpus ->
  (1 <= List.length gpus)%nat ->
  Spec.decimal_numeral s = true ->
  0 < Spec.numeral_value s <= 2147483648 ->
  plugin_run h 2 [prog; "-" ++ s]
  = Some (mkRun 1 ""
            (out_of_range_error (- Spec.numeral_value s) (List.length gpus))).
Proof.
  intros Hd Hpos Hnum Hval.
  assert (Hne : gpus <> []) by (destruct gpus; [simpl in Hpos; lia | discriminate]).
  assert (Hstoi := stoi_minus_numeral s Hnum (proj2 Hval)).
  assert (Hkw : Spec.recognized ("-" ++ s) = false)
    by (apply not_recognized_of_stoi; rewrite Hstoi; discriminate).
  unfold plugin_run. rewrite Hd, (plugin_run_on_index gpus prog _ Hne Hkw).
  unfold select_index. rewrite Hstoi.
  replace (- Spec.numeral_value s <? 0) with true; [reflexivity|].
  symmetry. apply Z.ltb_lt. lia.
Qed.

Lemma negative_index_out_of_range_witness :
  plugin_run (OnLinux Sample.two_cards) 2 ["gpu"; "-" ++ "1"]
  = Some (mkRun 1 "" (out_of_range_error (- Spec.numeral_value "1") 2)).
Proof.
  apply (negative_index_out_of_range (OnLinux Sample.two_cards)
           [Sample.nvidia_gpu; Sample.amd_gpu] "gpu" "1").
  - vm_compute. reflexivity.
  - simpl. lia.
  - reflexivity.
  - vm_compute. split; [reflexivity | discriminate].
Defined.

Lemma display_each_concat gpus :
  display_each gpus
  = String.concat Cxx.nl (map (fun gpu => display_gpu gpu true) gpus).
Proof.
  induction gpus as [|gpu rest IH]; [reflexivity|].
  destruct rest as [|gpu' rest']; [reflexivity|].
  cbn [display_each map String.concat] in *. now rewrite IH.
Qed.

(** X14. With at least one record the argument "all" makes the run write
    the header with the count of the records and then the brief block of
    every record, in order, with one blank line between two blocks and none
    after the last, and return 0 with nothing on [std::cerr]. *)
Theorem all_shows_every_record h gpus prog :
  detect_gpus h = Returned gpus ->
  (1 <= List.length gpus)%nat ->
  plugin_run h 2 [prog; "all"]
  = Some (mkRun 0
            (print_header ("All GPUs ("
                           ++ Cxx.to_string (Z.of_nat (List.length gpus))
                           ++ " detected)")
             ++ String.concat Cxx.nl
                  (map (fun gpu => display_gpu gpu true) gpus))
            "").
Proof.
  intros Hd Hpos. unfold plugin_run. rewrite Hd.
  destruct gpus as [|gpu0 rest]; [simpl in Hpos; lia|].
  cbn [plugin_run_on Z.eqb Pos.eqb nth_error String.eqb Ascii.eqb Bool.eqb orb andb].
  unfold display_all_gpus. now rewrite display_each_concat.
Qed.

Lemma all_shows_every_record_witness :
  plugin_run (OnLinux Sample.two_cards) 2 ["gpu"; "all"]
  = Some (mkRun 0
            (print_header ("All GPUs (" ++ Cxx.to_string 2 ++ " detected)")
             ++ String.concat Cxx.nl
                  (map (fun gpu => display_gpu gpu true)
                     [Sample.nvidia_gpu; Sample.amd_gpu]))
            "").
Proof.
  apply (all_shows_every_record (OnLinux Sample.two_cards)
           [Sample.nvidia_gpu; Sample.amd_gpu] "gpu").
  - vm_compute. reflexivity.
  - simpl. lia.
Defined.

(** ** A PCI_ID line without colon, and the version of the NVIDIA module *)

Lemma find_char_none c s :
  Text.without_char c s = true -> Cxx.find_char c s = None.
Proof.
  unfold Text.without_char. induction s as [|x r IH]; simpl; [reflexivity|].
  intros H. apply andb_true_iff in H. destruct H as [Hx Hr].
  apply negb_true_iff in Hx. now rewrite Hx, IH.
Qed.

(** X15. A uevent file whose only PCI_ID line has no colon gives the
    record the text after PCI_ID= as its PCI id and the vendor Unknown,
    whatever that text is. *)
Theorem uevent_pci_id_without_colon nv entries gpus e g before id after :
  detect_gpus (OnLinux (Linux.mkSysfs (Linux.DrmListing entries) nv))
  = Returned gpus ->
  In (e, g) (combine (cards entries) gpus) ->
  Linux.exists_ (Linux.uevent e) = true ->
  Linux.lines (Linux.uevent e) = (before ++ ("PCI_ID=" ++ id)%string :: after)%list ->
  Text.without_char ":" id = true ->
  forallb (fun l => negb (Text.pci_id_line l)) (before ++ after) = true ->
  pci_id g = id /\ vendor g = "Unknown".
Proof.
  intros Hd Hin Hex Hlines Hid Hother.
  destruct (linux_record_of nv entries gpus e g Hd Hin) as (i & ->).
  rewrite forallb_app in Hother. apply andb_true_iff in Hother.
  destruct Hother as [Hb Ha].
  unfold Linux.card_gpu, Linux.read_uevent, Linux.scan_uevent.
  rewrite Hex, Hlines, fold_left_app. cbn [fold_left].
  rewrite (scan_other before _ Hb).
  assert (Hline : Linux.uevent_line (Linux.mkUevent "" "" "") ("PCI_ID=" ++ id)
                  = Linux.mkUevent id "" "").
  { unfold Linux.uevent_line.
    assert (Hf : Cxx.find "PCI_ID=" ("PCI_ID=" ++ id) = Some O)
      by (apply find_zero_prefix, prefix_split; now eexists).
    rewrite Hf. change 7%nat with (String.length "PCI_ID=").
    rewrite substr_from_skip, (find_char_none ":" id Hid). reflexivity. }
  rewrite Hline, (scan_other after _ Ha). cbn. now split.
Qed.

Lemma uevent_pci_id_without_colon_witness :
  pci_id (mkGPUInfo "Unknown GPU [10de]" "Unknown" "" "10de" 0 true) = "10de"
  /\ vendor (mkGPUInfo "Unknown GPU [10de]" "Unknown" "" "10de" 0 true)
     = "Unknown".
Proof.
  apply (uevent_pci_id_without_colon Linux.Absent
           [Linux.mkEntry "card0"
              (Linux.Readable ("DRIVER=nvidia" ++ Cxx.nl ++ "PCI_ID=10de" ++ Cxx.nl))
              Linux.Absent Linux.Absent Linux.Absent]
           [mkGPUInfo "Unknown GPU [10de]" "Unknown" "" "10de" 0 true]
           (Linux.mkEntry "card0"
              (Linux.Readable ("DRIVER=nvidia" ++ Cxx.nl ++ "PCI_ID=10de" ++ Cxx.nl))
              Linux.Absent Linux.Absent Linux.Absent)
           _ ["DRIVER=nvidia"] "10de" []).
  - vm_compute. reflexivity.
  - left. reflexivity.
  - reflexivity.
  - reflexivity.
  - reflexivity.
  - reflexivity.
Defined.

(** The first occurrence of a text whose first character does not occur
    before it. *)
Lemma find_after a p pre : forall rest,
  Text.without_char a pre = true ->
  Cxx.find (String a p) (pre ++ String a (p ++ rest)) = Some (String.length pre).
Proof.
  unfold Cxx.find, Text.without_char.
  induction pre as [|b pre IH]; intros rest Hpre.
  - cbn [append String.index String.length].
    replace (prefix (String a p) (String a (p ++ rest))) with true; [reflexivity|].
    symmetry. apply (prefix_split (String a p)). now exists rest.
  - cbn [Text.every_char] in Hpre. apply andb_true_iff in Hpre.
    destruct Hpre as [Hb Hpre]. apply negb_true_iff, Ascii.eqb_neq in Hb.
    cbn [append String.index prefix String.length].
    destruct (ascii_dec a b) as [E|_]; [contradiction|].
    now rewrite (IH rest Hpre).
Qed.

Lemma skip_space_spaces ws : forall s,
  Text.every_char Cxx.isspace ws = true ->
  Cxx.skip_space (ws ++ s) = Cxx.skip_space s.
Proof.
  induction ws as [|c ws IH]; intros s H; [reflexivity|].
  cbn [Text.every_char] in H. apply andb_true_iff in H. destruct H as [Hc Hws].
  cbn [append Cxx.skip_space]. rewrite Hc. now apply IH.
Qed.

Lemma take_word_token tok : forall tail,
  Text.no_space tok = true -> Text.ends_word tail = true ->
  Cxx.take_word (tok ++ tail) = tok.
Proof.
  unfold Text.no_space.
  induction tok as [|c tok IH]; intros tail Htok Htail.
  - destruct tail as [|x tail]; [reflexivity|]. simpl in *. now rewrite Htail.
  - cbn [Text.every_char] in Htok. apply andb_true_iff in Htok.
    destruct Htok as [Hc Htok]. apply negb_true_iff in Hc.
    cbn [append Cxx.take_word]. now rewrite Hc, IH.
Qed.

Lemma extract_token_token ws tok tail :
  Text.every_char Cxx.isspace ws = true ->
  tok <> "" -> Text.no_space tok = true -> Text.ends_word tail = true ->
  Cxx.extract_token (ws ++ tok ++ tail) = Some tok.
Proof.
  intros Hws Hne Htok Htail. unfold Cxx.extract_token.
  rewrite (skip_space_spaces ws _ Hws).
  destruct tok as [|c tok]; [contradiction|].
  pose proof Htok as Hc. unfold Text.no_space in Hc.
  cbn [Text.every_char] in Hc. apply andb_true_iff in Hc. destruct Hc as [Hc _].
  apply negb_true_iff in Hc.
  cbn [append Cxx.skip_space]. rewrite Hc.
  f_equal. apply (take_word_token (String c tok) tail Htok Htail).
Qed.

Lemma version_line_token driver pre ws tok tail :
  Text.without_char "K" pre = true ->
  Text.every_char Cxx.isspace ws = true ->
  tok <> "" -> Text.no_space tok = true -> Text.ends_word tail = true ->
  Linux.version_line driver (pre ++ "Kernel Module" ++ ws ++ tok ++ tail) = tok.
Proof.
  intros Hpre Hws Hne Htok Htail. unfold Linux.version_line.
  replace (Cxx.find "Kernel Module"
             (pre ++ "Kernel Module" ++ ws ++ tok ++ tail))
    with (Some (String.length pre))
    by (symmetry; exact (find_after "K" "ernel Module" pre _ Hpre)).
  change 13%nat with (String.length "Kernel Module").
  rewrite <- length_append, <- append_assoc, substr_from_skip.
  now rewrite (extract_token_token ws tok tail Hws Hne Htok Htail).
Qed.

Lemma version_line_unmarked driver line :
  Spec.mentions line "Kernel Module" = false ->
  Linux.version_line driver line = driver.
Proof.
  unfold Spec.mentions, Linux.version_line.
  destruct (Cxx.find "Kernel Module" line); [discriminate | reflexivity].
Qed.

Lemma version_unmarked lines : forall driver,
  forallb (fun l => negb (Spec.mentions l "Kernel Module")) lines = true ->
  fold_left Linux.version_line lines driver = driver.
Proof.
  induction lines as [|l rest IH]; intros driver H; [reflexivity|].
  cbn [forallb] in H. apply andb_true_iff in H. destruct H as [Hl Hrest].
  apply negb_true_iff in Hl. cbn [fold_left].
  now rewrite (version_line_unmarked driver l Hl), IH.
Qed.

(** X16. For a record of vendor NVIDIA, when the last line of
    /proc/driver/nvidia/version that holds "Kernel Module" has a word after
    it (white space, then the word, then white space or the end of the
    line; no 'K' before the marker), the driver version is that word. *)
Theorem nvidia_driver_version nv entries gpus g before pre ws tok tail after :
  detect_gpus (OnLinux (Linux.mkSysfs (Linux.DrmListing entries) nv))
  = Returned gpus ->
  In g gpus ->
  vendor g = "NVIDIA" ->
  Linux.exists_ nv = true ->
  Linux.lines nv
  = (before ++ (pre ++ "Kernel Module" ++ ws ++ tok ++ tail)%string :: after)%list ->
  Text.without_char "K" pre = true ->
  Text.every_char Cxx.isspace ws = true ->
  tok <> "" ->
  Text.no_space tok = true ->
  Text.ends_word tail = true ->
  forallb (fun l => negb (Spec.mentions l "Kernel Module")) after = true ->
  driver_version g = tok.
Proof.
  intros Hd Hin Hven Hex Hlines Hpre Hws Hne Htok Htail Hafter.
  destruct (linux_record_in nv entries gpus g Hd Hin) as (i & e & ->).
  unfold Linux.card_gpu in *.
  destruct (Linux.read_uevent (Linux.uevent e)) as [pci ven].
  cbn [vendor driver_version] in *. subst ven.
  unfold Linux.read_driver_version. cbn [String.eqb Ascii.eqb Bool.eqb].
  rewrite Hex, Hlines, fold_left_app. cbn [fold_left].
  rewrite (version_line_token _ pre ws tok tail Hpre Hws Hne Htok Htail).
  apply (version_unmarked after tok Hafter).
Qed.

Lemma nvidia_driver_version_witness :
  driver_version Sample.nvidia_gpu = "535.183.01".
Proof.
  apply (nvidia_driver_version (Linux.nvidia_version Sample.two_cards)
           [Sample.card "card0" "nvidia" "10DE:1B80"; Sample.other "card0-HDMI-A-1";
            Sample.other "renderD128"; Sample.card "card1" "amdgpu" "1002:6798";
            Sample.other "version"]
           [Sample.nvidia_gpu; Sample.amd_gpu] Sample.nvidia_gpu
           [] "NVRM version: NVIDIA UNIX x86_64 " "  " "535.183.01"
           "  Sun May 12" ["GCC version:  gcc version 12.2.0"]).
  - vm_compute. reflexivity.
  - left. reflexivity.
  - reflexivity.
  - reflexivity.
  - reflexivity.
  - reflexivity.
  - reflexivity.
  - discriminate.
  - reflexivity.
  - reflexivity.
  - reflexivity.
Defined.
